(** * Si115X command protocol and instruction decoder of the light tunnel

    A shallow embedding of [hardware/arduino/lt_mk_1/Si115X.cpp]
    (the driver of the Si115X optical sensor over I2C) together with the
    instruction record declared in the board's utilities header.

    Conventions.
    - [uint8_t] values are integers of [Z] reduced with [uint8]
      (i.e. modulo 256) wherever the source stores into a [uint8_t].
    - [int] values are integers of [Z]; every [int] the driver computes lies
      between -17 and 10000, so no 16-bit overflow can occur.
    - The Arduino [Wire] object and the peer on the I2C bus are the
      environment of the driver.  They are modelled by the state record
      [TwoWire] over an arbitrary peer ([I2CPeer]); driver code is written
      in the state monad [M] over that record. *)

From Stdlib Require Import ZArith List Lia Bool String Ascii QArith.
From stdpp Require Import base option list gmap strings.

Local Open Scope Z_scope.

(** ** Machine integers *)

(** Conversion to [uint8_t]. *)
Definition uint8 (z : Z) : Z := z mod 256.

(** C truth value of an integer. *)
Definition truthy (z : Z) : bool := negb (z =? 0).

(** ** The I2C bus *)

(** What crosses the bus: a write transaction carries [data] to the peer at
    [addr]; a read transaction asks the peer at [addr] for [quantity] bytes
    and obtains [data] (the empty list when nothing answers). *)
Inductive bus_event : Type :=
| Tx (addr : Z) (data : list Z)
| Rx (addr : Z) (quantity : Z) (data : list Z).

(** A peer on the bus: how its state reacts to a write transaction and what
    it delivers on a read transaction. *)
Class I2CPeer (D : Type) : Type := {
  peer_receive : Z -> list Z -> D -> D;
  peer_transmit : Z -> Z -> D -> list Z * D
}.

(** State of the [Wire] object: the address and buffer of the transmission
    being assembled, the bytes received and not yet read, the peer, and the
    history of bus transactions (most recent last). *)
Record TwoWire (D : Type) : Type := mkWire {
  txAddress : Z;
  txBuffer : list Z;
  rxBuffer : list Z;
  bus : D;
  trace : list bus_event
}.
Arguments mkWire {D}.
Arguments txAddress {D}.
Arguments txBuffer {D}.
Arguments rxBuffer {D}.
Arguments bus {D}.
Arguments trace {D}.

(** ** The state monad of driver code *)

Definition M (D A : Type) : Type := TwoWire D -> A * TwoWire D.

Definition ret {D A} (a : A) : M D A := fun w => (a, w).

Definition bind {D A B} (c : M D A) (k : A -> M D B) : M D B :=
  fun w => let (a, w') := c w in k a w'.

Declare Scope wire_scope.
Delimit Scope wire_scope with wire.
Notation "'do' x <- c ; k" := (bind c (fun x => k))
  (at level 10, x name, c at level 100, k at level 200) : wire_scope.
Notation "'run' c ; k" := (bind c (fun _ => k))
  (at level 10, c at level 100, k at level 200) : wire_scope.
Local Open Scope wire_scope.

(** A [do { ... } while (cond)] loop whose body returns the value of its
    condition.  The source loops are unbounded, so the model is given fuel:
    [None] means the loop was still running when the fuel ran out. *)
Fixpoint do_while {S : Type} (fuel : nat) (body : S -> bool * S) (s : S)
  : option S :=
  match fuel with
  | O => None
  | S fuel' =>
      let (again, s') := body s in
      if again then do_while fuel' body s' else Some s'
  end.

(** [iter_state k c w]: the state after running [c] [k] times from [w]. *)
Fixpoint iter_state {D A} (k : nat) (c : M D A) (w : TwoWire D) : TwoWire D :=
  match k with
  | O => w
  | S k' => iter_state k' c (snd (c w))
  end.

(** ** The Wire library

    What the driver uses of Arduino's [Wire]: a transmission is assembled
    with [beginTransmission] and [write] and sent by [endTransmission];
    [requestFrom] fills the receive buffer, an array of [uint8_t], with what
    the peer delivers; [available] counts the bytes not yet read and [read]
    takes the next one, or gives -1 when there is none. *)

Section Wire.
Context {D : Type} `{I2CPeer D}.

Definition Wire_beginTransmission (addr : Z) : M D unit := fun w =>
  (tt, mkWire addr [] (rxBuffer w) (bus w) (trace w)).

Definition Wire_write (data : list Z) : M D unit := fun w =>
  (tt, mkWire (txAddress w) (txBuffer w ++ data) (rxBuffer w) (bus w) (trace w)).

Definition Wire_endTransmission : M D unit := fun w =>
  (tt, mkWire (txAddress w) [] (rxBuffer w)
         (peer_receive (txAddress w) (txBuffer w) (bus w))
         (trace w ++ [Tx (txAddress w) (txBuffer w)])).

Definition Wire_requestFrom (addr quantity : Z) : M D unit := fun w =>
  let (data, d') := peer_transmit addr quantity (bus w) in
  (tt, mkWire (txAddress w) (txBuffer w)
         (map uint8 (take (Z.to_nat quantity) data)) d'
         (trace w ++ [Rx addr quantity data])).

Definition Wire_available : M D Z := fun w =>
  (Z.of_nat (length (rxBuffer w)), w).

Definition Wire_read : M D Z := fun w =>
  match rxBuffer w with
  | [] => (-1, w)
  | b :: rest =>
      (b, mkWire (txAddress w) (txBuffer w) rest (bus w) (trace w))
  end.
End Wire.

(** ** Constants of [Si115X.h]

    The header is not part of the sources at hand: the bus address of the
    sensor, its register addresses and the error flag of [RESPONSE0] are
    taken as parameters of the development. *)
Class Si115X_h : Type := {
  DEVICE_ADDRESS : Z;
  HOSTIN_0 : Z;
  COMMAND : Z;
  RESPONSE_0 : Z;
  RESPONSE_1 : Z;
  HOSTOUT_0 : Z;
  HOSTOUT_1 : Z;
  HOSTOUT_2 : Z;
  HOSTOUT_3 : Z;
  CMD_ERR : Z
}.

(** Modelled from the spec: the mask [Si115X::CMD_CTR] of [Si115X.h], which
    is missing; the spec places the command counter in the low 4 bits of the
    status register. *)
Definition CMD_CTR : Z := 15.

Definition MAX_RETRIES : Z := 10000.

(** Modelled from the spec: the spec calls [CMD_ERR] a flag bit of the status
    byte, beside the counter in the low 4 bits; [flag_bit] says that a mask
    is one of the four upper bits of a byte. *)
Definition flag_bit (mask : Z) : Prop :=
  mask = 16 \/ mask = 32 \/ mask = 64 \/ mask = 128.

(** The result of [read_output], with the fields that [read_output]
    assigns; the structure itself is declared in the missing header.  A
    channel that [read_output] leaves unassigned is [None].  Channel values
    never exceed 65535, which a 16-bit unsigned integer and a
    single-precision float both hold exactly. *)
Record LightReading : Type := mkReading {
  ok : Z;
  ir : option Z;
  vis : option Z
}.

(** ** The driver *)

Section Si115X.
Context {hdr : Si115X_h} {D : Type} `{I2CPeer D}.

(** [Si115X::write_data]; [data] is the array of [len] bytes. *)
Definition write_data (addr : Z) (data : list Z) : M D unit :=
  run Wire_beginTransmission addr;
  run Wire_write data;
  Wire_endTransmission.

(** [Si115X::read_register] *)
Definition read_register (addr reg bytesOfData : Z) : M D Z :=
  let val := -1 in
  run write_data addr [reg];
  run Wire_requestFrom addr bytesOfData;
  do avail <- Wire_available;
  if truthy avail then
    do val <- Wire_read;
    ret val
  else ret val.

(** What the peer delivers when register [reg] of [addr] is read from [w]. *)
Definition delivered (addr reg n : Z) (w : TwoWire D) : list Z * D :=
  peer_transmit addr n (peer_receive addr [reg] (bus w)).

(** One pass through the body of the loop of [Si115X::param_set],
    returning the value of the loop condition [r > cmmnd_ctr]. *)
Definition param_set_pass (loc val : Z) : M D bool :=
  do cmmnd_ctr <- read_register DEVICE_ADDRESS RESPONSE_0 1;
  run write_data DEVICE_ADDRESS [HOSTIN_0; val];
  run write_data DEVICE_ADDRESS [COMMAND; uint8 (Z.lor loc (Z.shiftl 2 6))];
  do r <- read_register DEVICE_ADDRESS RESPONSE_0 1;
  ret (r >? cmmnd_ctr).

(** [Si115X::param_set] *)
Definition param_set (fuel : nat) (loc val : Z) (w : TwoWire D)
  : option (TwoWire D) :=
  do_while fuel (param_set_pass loc val) w.

(** One pass through the body of the loop of [Si115X::param_query]. *)
Definition param_query_pass (loc : Z) : M D bool :=
  do cmmnd_ctr <- read_register DEVICE_ADDRESS RESPONSE_0 1;
  run write_data DEVICE_ADDRESS [COMMAND; uint8 (Z.lor loc (Z.shiftl 1 6))];
  do r <- read_register DEVICE_ADDRESS RESPONSE_0 1;
  ret (r >? cmmnd_ctr).

(** [Si115X::param_query] *)
Definition param_query (fuel : nat) (loc : Z) (w : TwoWire D)
  : option (Z * TwoWire D) :=
  match do_while fuel (param_query_pass loc) w with
  | None => None
  | Some w' => Some (read_register DEVICE_ADDRESS RESPONSE_1 1 w')
  end.

(** The polling loop of [Si115X::send_command] with [n] iterations left. *)
Fixpoint poll (n : nat) (initial_cmd_ctr : Z) : M D Z :=
  match n with
  | O => ret 17
  | S n' =>
      do r <- read_register DEVICE_ADDRESS RESPONSE_0 1;
      let response := uint8 r in
      let cmd_ctr := Z.land response CMD_CTR in
      if truthy (Z.land response CMD_ERR) then
        ret (cmd_ctr + 1)
      else if (cmd_ctr >? initial_cmd_ctr)
              || truthy (Z.land (Z.b2z (initial_cmd_ctr =? 15))
                                (Z.b2z (cmd_ctr =? 0))) then
        ret 0
      else poll n' initial_cmd_ctr
  end.

(** [Si115X::send_command] *)
Definition send_command (code : Z) (force : bool) : M D Z :=
  do r <- read_register DEVICE_ADDRESS RESPONSE_0 1;
  let initial_read := uint8 r in
  let initial_cmd_ctr := Z.land initial_read CMD_CTR in
  if truthy (Z.land initial_read CMD_ERR) && negb force then
    ret ((initial_cmd_ctr + 1) * -1)
  else
    run write_data DEVICE_ADDRESS [COMMAND; code];
    poll (Z.to_nat MAX_RETRIES) initial_cmd_ctr.

(** [Si115X::read_output] *)
Definition read_output : M D LightReading :=
  do data0 <- read_register DEVICE_ADDRESS HOSTOUT_0 1;
  do data1 <- read_register DEVICE_ADDRESS HOSTOUT_1 1;
  do data2 <- read_register DEVICE_ADDRESS HOSTOUT_2 1;
  do data3 <- read_register DEVICE_ADDRESS HOSTOUT_3 1;
  if (data0 <? 0) || (data1 <? 0) || (data2 <? 0) || (data3 <? 0) then
    ret (mkReading (-1) None None)
  else
    ret (mkReading 0 (Some (data0 * 256 + data1))
                     (Some (data2 * 256 + data3))).

(** [Si115X::ReadByte]; the [int] that [Wire.read()] gives is returned as
    a [uint8_t]. *)
Definition ReadByte (Reg : Z) : M D Z :=
  run Wire_beginTransmission DEVICE_ADDRESS;
  run Wire_write [Reg];
  run Wire_endTransmission;
  run Wire_requestFrom DEVICE_ADDRESS 1;
  do v <- Wire_read;
  ret (uint8 v).

(** *** Vocabulary for statements about [send_command] *)

(** A read of the status register [RESPONSE0], as [send_command] does it. *)
Definition read_status : M D Z := read_register DEVICE_ADDRESS RESPONSE_0 1.

(** The status byte that the read after [k] earlier status reads obtains. *)
Definition poll_status (k : nat) (w : TwoWire D) : Z :=
  uint8 (fst (read_status (iter_state k read_status w))).

(** The state of the bus once [send_command] has read the status register
    and written the command. *)
Definition issued (code : Z) (w : TwoWire D) : TwoWire D :=
  snd (write_data DEVICE_ADDRESS [COMMAND; code] (snd (read_status w))).

(** A status byte that shows neither the error flag nor a counter that has
    advanced from [initial_cmd_ctr], by an increase or by wrapping from 15
    to 0. *)
Definition quiet (initial_cmd_ctr status : Z) : Prop :=
  Z.land status CMD_ERR = 0
  /\ ~ Z.land status CMD_CTR > initial_cmd_ctr
  /\ ~ (initial_cmd_ctr = 15 /\ Z.land status CMD_CTR = 0).
End Si115X.

(** ** Observations on the bus history *)

(** The values written to the command register: the write transactions to
    the sensor that select [COMMAND] and carry a data byte. *)
Fixpoint command_writes {hdr : Si115X_h} (t : list bus_event) : list Z :=
  match t with
  | [] => []
  | Tx addr (reg :: v :: _) :: t' =>
      if (addr =? DEVICE_ADDRESS) && (reg =? COMMAND)
      then v :: command_writes t'
      else command_writes t'
  | _ :: t' => command_writes t'
  end.

(** The number of read transactions. *)
Fixpoint reads (t : list bus_event) : nat :=
  match t with
  | [] => O
  | Rx _ _ _ :: t' => S (reads t')
  | Tx _ _ :: t' => reads t'
  end.

(** ** Peers *)

(** A peer that answers the successive read transactions with the successive
    elements of a script, whatever is written to it, and does not answer
    once the script is exhausted. *)
#[export] Instance scripted_peer : I2CPeer (list (list Z)) := {
  peer_receive _ _ script := script;
  peer_transmit _ _ script :=
    match script with
    | [] => ([], [])
    | answer :: script' => (answer, script')
    end
}.

(** A peer that answers every read transaction with the same bytes. *)
Record constant_peer : Type := Constant { answer : list Z }.

#[export] Instance constant_peer_I2C : I2CPeer constant_peer := {
  peer_receive _ _ p := p;
  peer_transmit _ _ p := (answer p, p)
}.

(** The part of the sensor that the parameter sub-protocol exercises, as a
    device that completes every command before the next bus transaction and
    never raises its error flag: the register selected by the last write
    transaction, the command counter, the staging register, the result
    register and the parameter table.  This is the environment against which
    the round trip of a parameter is stated; it is not part of the driver. *)
Record Si115X_device : Type := mkDevice {
  reg_ptr : Z;
  cmd_ctr : Z;
  hostin0 : Z;
  response1 : Z;
  param_table : gmap Z Z
}.

Section Device.
Context {hdr : Si115X_h}.

Definition device_read_reg (d : Si115X_device) : Z :=
  if reg_ptr d =? RESPONSE_0 then cmd_ctr d
  else if reg_ptr d =? RESPONSE_1 then response1 d
  else if reg_ptr d =? HOSTIN_0 then hostin0 d
  else 0.

(** A command byte [10llllll] stores the staged value at parameter
    [llllll], [01llllll] fetches that parameter into the result register;
    every command advances the counter modulo 16. *)
Definition device_command (code : Z) (d : Si115X_device) : Si115X_device :=
  let loc := Z.land code 63 in
  let ctr := (cmd_ctr d + 1) mod 16 in
  if Z.shiftr code 6 =? 2 then
    mkDevice (reg_ptr d) ctr (hostin0 d) (hostin0 d)
             (<[loc := hostin0 d]> (param_table d))
  else if Z.shiftr code 6 =? 1 then
    mkDevice (reg_ptr d) ctr (hostin0 d)
             (default 0 (param_table d !! loc)) (param_table d)
  else
    mkDevice (reg_ptr d) ctr (hostin0 d) (response1 d) (param_table d).

Definition device_write_reg (v : Z) (d : Si115X_device) : Si115X_device :=
  if reg_ptr d =? HOSTIN_0 then
    mkDevice (reg_ptr d) (cmd_ctr d) (uint8 v) (response1 d) (param_table d)
  else if reg_ptr d =? COMMAND then device_command (uint8 v) d
  else d.

Definition device_select (reg : Z) (d : Si115X_device) : Si115X_device :=
  mkDevice reg (cmd_ctr d) (hostin0 d) (response1 d) (param_table d).

#[export] Instance Si115X_peer : I2CPeer Si115X_device := {
  peer_receive addr data d :=
    if addr =? DEVICE_ADDRESS then
      match data with
      | [] => d
      | [reg] => device_select reg d
      | reg :: v :: _ => device_write_reg v (device_select reg d)
      end
    else d;
  peer_transmit addr quantity d :=
    if addr =? DEVICE_ADDRESS then ([device_read_reg d], d) else ([], d)
}.
End Device.

(** The same sensor when a command takes time: a command written to the
    command register is queued and completes, with the effect
    [device_command] gives it, only after the device has answered [latency]
    further read transactions; the status register shows the counter of the
    commands completed so far.  With [latency] 0 a command completes as it
    is written, as on [Si115X_device].  Like that device, this is an
    environment of the driver, not a part of it. *)
Record slow_device : Type := mkSlow {
  core : Si115X_device;
  latency : nat;
  busy : nat;
  pending : list Z
}.

Section SlowDevice.
Context {hdr : Si115X_h}.

(** A command arrives: it runs at once on a device without latency, starts
    the countdown on an idle device, and waits its turn otherwise. *)
Definition slow_accept (code : Z) (s : slow_device) : slow_device :=
  match latency s with
  | O => mkSlow (device_command code (core s)) O O []
  | S _ =>
      match pending s with
      | [] => mkSlow (core s) (latency s) (latency s) [code]
      | _ => mkSlow (core s) (latency s) (busy s) (pending s ++ [code])
      end
  end.

(** A read transaction has been answered: the oldest pending command gets
    one step closer to completion, and completes on its last step. *)
Definition slow_tick (s : slow_device) : slow_device :=
  match pending s with
  | [] => s
  | code :: rest =>
      match busy s with
      | S (S b) => mkSlow (core s) (latency s) (S b) (pending s)
      | _ => mkSlow (device_command code (core s)) (latency s) (latency s) rest
      end
  end.

#[export] Instance slow_peer : I2CPeer slow_device := {
  peer_receive addr data s :=
    if addr =? DEVICE_ADDRESS then
      match data with
      | [] => s
      | [reg] =>
          mkSlow (device_select reg (core s)) (latency s) (busy s) (pending s)
      | reg :: v :: _ =>
          let selected := device_select reg (core s) in
          if reg =? HOSTIN_0 then
            mkSlow (device_write_reg v selected)
                   (latency s) (busy s) (pending s)
          else if reg =? COMMAND then
            slow_accept (uint8 v)
                        (mkSlow selected (latency s) (busy s) (pending s))
          else mkSlow selected (latency s) (busy s) (pending s)
      end
    else s;
  peer_transmit addr quantity s :=
    if addr =? DEVICE_ADDRESS
    then ([device_read_reg (core s)], slow_tick s)
    else ([], s)
}.
End SlowDevice.

(** The addresses and the error flag that the Si115X datasheet gives; used
    to run the driver on concrete inputs. *)
Definition datasheet : Si115X_h := {|
  DEVICE_ADDRESS := 0x53;
  HOSTIN_0 := 0x0A;
  COMMAND := 0x0B;
  RESPONSE_0 := 0x11;
  RESPONSE_1 := 0x10;
  HOSTOUT_0 := 0x13;
  HOSTOUT_1 := 0x14;
  HOSTOUT_2 := 0x15;
  HOSTOUT_3 := 0x16;
  CMD_ERR := 0x10
|}.

(** An idle [Wire] object in front of a peer. *)
Definition idle {D : Type} (d : D) : TwoWire D := mkWire 0 [] [] d [].


(** ** The instruction parser *)

(** [instruction_type] of the utilities header. *)
Inductive instruction_type : Type := SET | MSR | RST | UNK.

(** [struct Instruction] of the utilities header.  The two [float] fields
    hold the rational that the text of the field denotes; [None] is the
    default of a field that the line does not give. *)
Record Instruction : Type := mkInstruction {
  type : instruction_type;
  target : string;
  p1 : option Q;
  p2 : option Q
}.

Definition digit (c : ascii) : option Z :=
  let n := Z.of_N (N_of_ascii c) in
  if (48 <=? n) && (n <=? 57) then Some (n - 48) else None.

(** The number written by a string of decimal digits, after [acc]. *)
Fixpoint digits (s : string) (acc : Z) : option Z :=
  match s with
  | EmptyString => Some acc
  | String c s' =>
      match digit c with
      | Some d => digits s' (acc * 10 + d)
      | None => None
      end
  end.

(** The text before the first point, and the text after it if there is one. *)
Fixpoint split_point (s : string) : string * option string :=
  match s with
  | EmptyString => (EmptyString, None)
  | String c s' =>
      if Ascii.eqb c "."%char then (EmptyString, Some s')
      else let (a, b) := split_point s' in (String c a, b)
  end.

Definition unsigned_number (s : string) : option Q :=
  match split_point s with
  | (EmptyString, _) => None
  | (whole, None) =>
      match digits whole 0 with
      | Some i => Some (inject_Z i)
      | None => None
      end
  | (whole, Some frac) =>
      match digits whole 0, digits frac 0 with
      | Some i, Some f =>
          let scale := 10 ^ Z.of_nat (String.length frac) in
          Some (Qmake (i * scale + f) (Z.to_pos scale))
      | _, _ => None
      end
  end.

(** A numeric field: a decimal numeral with an optional sign and an optional
    fraction. *)
Definition number (s : string) : option Q :=
  match s with
  | String "-"%char s' =>
      match unsigned_number s' with
      | Some q => Some (Qopp q)
      | None => None
      end
  | _ => unsigned_number s
  end.

Definition verb (s : string) : instruction_type :=
  if String.eqb s "SET" then SET
  else if String.eqb s "MSR" then MSR
  else if String.eqb s "RST" then RST
  else UNK.

(** Modelled from the spec: the body of [decode_instruction], which the
    utilities header declares and whose definition is missing.  A line is
    [<verb> <target> [p1] [p2]], its fields delimited by white space; the
    verb is one of [SET], [MSR], [RST], matched with case; an absent numeric
    field keeps its default; any other line, and a line with a numeric field
    that is not a number, gives [UNK] with the text of the line kept in
    [target]. *)
Definition decode_instruction (instruction : string) : Instruction :=
  let unknown := mkInstruction UNK instruction None None in
  match String.words instruction with
  | v :: t :: params =>
      match verb v with
      | UNK => unknown
      | kind =>
          match params with
          | [] => mkInstruction kind t None None
          | [a] =>
              match number a with
              | Some x => mkInstruction kind t (Some x) None
              | None => unknown
              end
          | [a; b] =>
              match number a, number b with
              | Some x, Some y => mkInstruction kind t (Some x) (Some y)
              | _, _ => unknown
              end
          | _ => unknown
          end
      end
  | _ => unknown
  end.


(** * Properties *)

(** ** Machine integers *)

Lemma uint8_range (z : Z) : 0 <= uint8 z <= 255.
Proof. unfold uint8. pose proof (Z.mod_pos_bound z 256). lia. Qed.

Lemma uint8_small (z : Z) : 0 <= z <= 255 -> uint8 z = z.
Proof. intros Hz. unfold uint8. apply Z.mod_small. lia. Qed.

Lemma truthy_true (z : Z) : truthy z = true <-> z <> 0.
Proof. unfold truthy. destruct (Z.eqb_spec z 0); simpl; intuition congruence. Qed.

Lemma truthy_false (z : Z) : truthy z = false <-> z = 0.
Proof. unfold truthy. destruct (Z.eqb_spec z 0); simpl; intuition congruence. Qed.

Lemma counter_range (z : Z) : 0 <= Z.land (uint8 z) CMD_CTR <= 15.
Proof.
  assert (E : Z.land (uint8 z) CMD_CTR = uint8 z mod 16)
    by (apply (Z.land_ones (uint8 z) 4); lia).
  rewrite E. pose proof (Z.mod_pos_bound (uint8 z) 16). lia.
Qed.

(** ** The bus layer *)

Section BusLayer.
Context {hdr : Si115X_h} {D : Type} `{I2CPeer D}.

Lemma write_data_eq (addr : Z) (data : list Z) (w : TwoWire D) :
  write_data addr data w =
  (tt, mkWire addr [] (rxBuffer w) (peer_receive addr data (bus w))
         (trace w ++ [Tx addr data])).
Proof. reflexivity. Qed.

Lemma read_register_eq (addr reg n : Z) (w : TwoWire D) :
  read_register addr reg n w =
  match map uint8 (take (Z.to_nat n) (fst (delivered addr reg n w))) with
  | [] =>
      (-1, mkWire addr [] [] (snd (delivered addr reg n w))
             (trace w ++ [Tx addr [reg]; Rx addr n (fst (delivered addr reg n w))]))
  | b :: rest =>
      (b, mkWire addr [] rest (snd (delivered addr reg n w))
            (trace w ++ [Tx addr [reg]; Rx addr n (fst (delivered addr reg n w))]))
  end.
Proof.
  unfold read_register, delivered, bind. rewrite write_data_eq.
  unfold Wire_requestFrom, Wire_available, Wire_read, ret. simpl.
  destruct (peer_transmit addr n (peer_receive addr [reg] (bus w))) as [data d'].
  simpl. rewrite <- app_assoc. simpl.
  destruct (map uint8 (take (Z.to_nat n) data)) as [|b rest]; reflexivity.
Qed.

Lemma read_register_value (addr reg n : Z) (w : TwoWire D) :
  fst (read_register addr reg n w) = -1
  \/ 0 <= fst (read_register addr reg n w) <= 255.
Proof.
  rewrite read_register_eq.
  destruct (take (Z.to_nat n) (fst (delivered addr reg n w))) as [|b rest];
    simpl; [now left | right; apply uint8_range].
Qed.

Lemma read_register_trace (addr reg n : Z) (w : TwoWire D) :
  exists data,
    trace (snd (read_register addr reg n w)) =
    trace w ++ [Tx addr [reg]; Rx addr n data].
Proof.
  rewrite read_register_eq. eexists.
  destruct (map uint8 _); reflexivity.
Qed.

(** C8: [read_register] returns the received byte, a non-negative integer,
    when [Wire.available()] reports a byte after the request, and -1 when it
    reports none; a negative result is always -1 and means that no byte was
    available. *)
Theorem read_register_sentinel (addr reg bytesOfData : Z) (w : TwoWire D) :
  let requested :=
    snd ((run write_data addr [reg]; Wire_requestFrom addr bytesOfData) w) in
  let val := fst (read_register addr reg bytesOfData w) in
  (fst (Wire_available requested) <> 0 ->
     head (rxBuffer requested) = Some val /\ 0 <= val <= 255)
  /\ (fst (Wire_available requested) = 0 -> val = -1)
  /\ (val < 0 -> val = -1 /\ fst (Wire_available requested) = 0).
Proof.
  intros requested val.
  assert (Hreq : rxBuffer requested =
            map uint8 (take (Z.to_nat bytesOfData)
                            (fst (delivered addr reg bytesOfData w)))).
  { subst requested. unfold bind. rewrite write_data_eq.
    unfold Wire_requestFrom, delivered. simpl.
    destruct (peer_transmit _ _ _); reflexivity. }
  subst val. rewrite read_register_eq.
  unfold Wire_available. simpl. rewrite Hreq.
  destruct (take _ _) as [|b rest]; simpl.
  - split; [intros Hn; now contradiction Hn | split; intros _; auto].
  - pose proof (uint8_range b).
    split; [intros _; split; [reflexivity | lia] | split; intros Hn; lia].
Qed.

End BusLayer.

(** ** The result decoder *)

Section ResultDecoder.
Context {hdr : Si115X_h} {D : Type} `{I2CPeer D}.

(** C7: [read_output] performs its four register reads in order.  If any of
    them returns -1 the reading has [ok = -1] and neither channel is
    assigned; otherwise [ok = 0], the infrared channel is the first byte
    times 256 plus the second, and the visible channel is the third byte
    times 256 plus the fourth. *)
Theorem read_output_all_or_nothing (w : TwoWire D) :
  let r0 := read_register DEVICE_ADDRESS HOSTOUT_0 1 w in
  let r1 := read_register DEVICE_ADDRESS HOSTOUT_1 1 (snd r0) in
  let r2 := read_register DEVICE_ADDRESS HOSTOUT_2 1 (snd r1) in
  let r3 := read_register DEVICE_ADDRESS HOSTOUT_3 1 (snd r2) in
  let result := fst (read_output w) in
  snd (read_output w) = snd r3
  /\ (fst r0 = -1 \/ fst r1 = -1 \/ fst r2 = -1 \/ fst r3 = -1 ->
      ok result = -1 /\ ir result = None /\ vis result = None)
  /\ (~ (fst r0 = -1 \/ fst r1 = -1 \/ fst r2 = -1 \/ fst r3 = -1) ->
      ok result = 0
      /\ ir result = Some (fst r0 * 256 + fst r1)
      /\ vis result = Some (fst r2 * 256 + fst r3)
      /\ 0 <= fst r0 * 256 + fst r1 <= 65535
      /\ 0 <= fst r2 * 256 + fst r3 <= 65535).
Proof.
  intros r0 r1 r2 r3 result.
  pose proof (read_register_value DEVICE_ADDRESS HOSTOUT_0 1 w) as V0.
  pose proof (read_register_value DEVICE_ADDRESS HOSTOUT_1 1 (snd r0)) as V1.
  pose proof (read_register_value DEVICE_ADDRESS HOSTOUT_2 1 (snd r1)) as V2.
  pose proof (read_register_value DEVICE_ADDRESS HOSTOUT_3 1 (snd r2)) as V3.
  fold r0 in V0. fold r1 in V1. fold r2 in V2. fold r3 in V3.
  assert (E : read_output w =
    (if (fst r0 <? 0) || (fst r1 <? 0) || (fst r2 <? 0) || (fst r3 <? 0)
     then mkReading (-1) None None
     else mkReading 0 (Some (fst r0 * 256 + fst r1))
                      (Some (fst r2 * 256 + fst r3)), snd r3)).
  { unfold read_output, bind, ret. subst r3 r2 r1 r0.
    destruct (read_register DEVICE_ADDRESS HOSTOUT_0 1 w) as [d0 w0]; simpl.
    destruct (read_register DEVICE_ADDRESS HOSTOUT_1 1 w0) as [d1 w1]; simpl.
    destruct (read_register DEVICE_ADDRESS HOSTOUT_2 1 w1) as [d2 w2]; simpl.
    destruct (read_register DEVICE_ADDRESS HOSTOUT_3 1 w2) as [d3 w3]; simpl.
    destruct ((d0 <? 0) || (d1 <? 0) || (d2 <? 0) || (d3 <? 0)); reflexivity. }
  subst result. rewrite E. simpl. clear E.
  split; [reflexivity |].
  destruct (Z.ltb_spec (fst r0) 0), (Z.ltb_spec (fst r1) 0),
    (Z.ltb_spec (fst r2) 0), (Z.ltb_spec (fst r3) 0); simpl;
    (split; [intros Hfail | intros Hgood]);
    try (repeat split; (reflexivity || lia));
    exfalso; lia.
Qed.

End ResultDecoder.

(** ** The command protocol engine *)

Lemma command_writes_app {hdr : Si115X_h} (t u : list bus_event) :
  command_writes (t ++ u) = command_writes t ++ command_writes u.
Proof.
  induction t as [|e t IH]; [reflexivity |].
  destruct e as [addr [|reg [|v data]]|addr n data]; simpl; auto.
  destruct ((addr =? DEVICE_ADDRESS) && (reg =? COMMAND)); simpl; congruence.
Qed.

Lemma reads_app (t u : list bus_event) :
  reads (t ++ u) = (reads t + reads u)%nat.
Proof.
  induction t as [|[addr data|addr n data] t IH]; simpl; congruence.
Qed.

Section CommandProtocol.
Context {hdr : Si115X_h} {D : Type} `{I2CPeer D}.

Lemma read_status_reads (w : TwoWire D) :
  reads (trace (snd (read_status w))) = S (reads (trace w)).
Proof.
  destruct (read_register_trace DEVICE_ADDRESS RESPONSE_0 1 w) as [data E].
  unfold read_status. rewrite E, reads_app. simpl. lia.
Qed.

Lemma read_status_command_writes (w : TwoWire D) :
  command_writes (trace (snd (read_status w))) = command_writes (trace w).
Proof.
  destruct (read_register_trace DEVICE_ADDRESS RESPONSE_0 1 w) as [data E].
  unfold read_status. rewrite E, command_writes_app. simpl.
  apply app_nil_r.
Qed.

Lemma iter_read_status_reads (k : nat) (w : TwoWire D) :
  reads (trace (iter_state k read_status w)) = (reads (trace w) + k)%nat.
Proof.
  revert w. induction k as [|k IH]; intros w; simpl; [lia |].
  rewrite IH, read_status_reads. lia.
Qed.

Lemma issued_reads (code : Z) (w : TwoWire D) :
  reads (trace (issued code w)) = S (reads (trace w)).
Proof.
  unfold issued. rewrite write_data_eq. cbn [snd trace].
  rewrite reads_app, read_status_reads. simpl. lia.
Qed.

Lemma poll_status_succ (k : nat) (w : TwoWire D) :
  poll_status (S k) w = poll_status k (snd (read_status w)).
Proof. reflexivity. Qed.

(** One iteration of the polling loop. *)
Lemma poll_step (n : nat) (c0 : Z) (w : TwoWire D) :
  poll (S n) c0 w =
  if truthy (Z.land (poll_status 0 w) CMD_ERR) then
    (Z.land (poll_status 0 w) CMD_CTR + 1, snd (read_status w))
  else if (Z.land (poll_status 0 w) CMD_CTR >? c0)
          || truthy (Z.land (Z.b2z (c0 =? 15))
                            (Z.b2z (Z.land (poll_status 0 w) CMD_CTR =? 0)))
  then (0, snd (read_status w))
  else poll n c0 (snd (read_status w)).
Proof.
  unfold poll_status, iter_state, read_status.
  cbn [poll]. unfold bind at 1.
  destruct (read_register DEVICE_ADDRESS RESPONSE_0 1 w) as [r w'].
  cbn [fst snd].
  destruct (truthy (Z.land (uint8 r) CMD_ERR)); [reflexivity |].
  destruct (_ || _); reflexivity.
Qed.

Lemma wrapped_iff (c0 c : Z) :
  truthy (Z.land (Z.b2z (c0 =? 15)) (Z.b2z (c =? 0))) = true
  <-> c0 = 15 /\ c = 0.
Proof.
  rewrite truthy_true.
  destruct (Z.eqb_spec c0 15), (Z.eqb_spec c 0);
    set (x := Z.land _ _); vm_compute in x; subst x;
    (split; [intros Hn | intros [? ?]]; lia).
Qed.

Lemma quiet_continue (c0 status : Z) :
  quiet c0 status ->
  truthy (Z.land status CMD_ERR) = false
  /\ (Z.land status CMD_CTR >? c0)
     || truthy (Z.land (Z.b2z (c0 =? 15))
                       (Z.b2z (Z.land status CMD_CTR =? 0))) = false.
Proof.
  intros (Herr & Hgt & Hwrap). split; [now apply truthy_false |].
  apply orb_false_intro.
  - destruct (Z.gtb_spec (Z.land status CMD_CTR) c0); [lia | reflexivity].
  - destruct (truthy _) eqn:E; [| reflexivity].
    apply wrapped_iff in E. tauto.
Qed.

(** Polls that read quiet status bytes only continue the loop. *)
Lemma poll_skip (k n : nat) (c0 : Z) (w : TwoWire D) :
  (forall j, (j < k)%nat -> quiet c0 (poll_status j w)) ->
  poll (k + n) c0 w = poll n c0 (iter_state k read_status w).
Proof.
  revert w. induction k as [|k IH]; intros w Hq; [reflexivity |].
  change (S k + n)%nat with (S (k + n)). rewrite poll_step.
  destruct (quiet_continue c0 (poll_status 0 w)) as [E1 E2];
    [apply Hq; lia |].
  rewrite E1, E2. cbn [iter_state]. apply IH.
  intros j Hj. rewrite <- poll_status_succ. apply Hq. lia.
Qed.

Lemma send_command_eq (code : Z) (force : bool) (w : TwoWire D) :
  send_command code force w =
  if truthy (Z.land (poll_status 0 w) CMD_ERR) && negb force then
    ((Z.land (poll_status 0 w) CMD_CTR + 1) * -1, snd (read_status w))
  else
    poll (Z.to_nat MAX_RETRIES) (Z.land (poll_status 0 w) CMD_CTR)
         (issued code w).
Proof.
  unfold send_command, issued, poll_status, iter_state, read_status.
  unfold bind at 1.
  destruct (read_register DEVICE_ADDRESS RESPONSE_0 1 w) as [r w'].
  cbn [fst snd].
  destruct (truthy (Z.land (uint8 r) CMD_ERR) && negb force); [reflexivity |].
  unfold bind. destruct (write_data _ _ w') as [[] w'']. reflexivity.
Qed.

Lemma send_command_proceeds (code : Z) (force : bool) (w : TwoWire D) :
  Z.land (poll_status 0 w) CMD_ERR = 0 \/ force = true ->
  send_command code force w =
  poll (Z.to_nat MAX_RETRIES) (Z.land (poll_status 0 w) CMD_CTR)
       (issued code w).
Proof.
  intros Hgo. rewrite send_command_eq.
  destruct Hgo as [Hok | ->].
  - apply truthy_false in Hok. rewrite Hok. reflexivity.
  - rewrite andb_false_r. reflexivity.
Qed.

Lemma send_command_aborts (code : Z) (w : TwoWire D) :
  Z.land (poll_status 0 w) CMD_ERR <> 0 ->
  send_command code false w =
  (- (Z.land (poll_status 0 w) CMD_CTR + 1), snd (read_status w)).
Proof.
  intros Herr. rewrite send_command_eq.
  apply truthy_true in Herr. rewrite Herr. cbn [andb negb].
  f_equal. lia.
Qed.

Lemma iter_state_last {A : Type} (k : nat) (c : M D A) (w : TwoWire D) :
  iter_state (S k) c w = snd (c (iter_state k c w)).
Proof.
  revert w. induction k as [|k IH]; intros w; [reflexivity |].
  change (iter_state (S (S k)) c w) with (iter_state (S k) c (snd (c w))).
  rewrite IH. reflexivity.
Qed.

Lemma poll_exhausted (n : nat) (c0 : Z) (w : TwoWire D) :
  (forall j, (j < n)%nat -> quiet c0 (poll_status j w)) ->
  poll n c0 w = (17, iter_state n read_status w).
Proof.
  intros Hq. rewrite <- (Nat.add_0_r n) at 1.
  rewrite poll_skip by exact Hq. reflexivity.
Qed.

Lemma poll_error (k n : nat) (c0 : Z) (w : TwoWire D) :
  (k < n)%nat ->
  (forall j, (j < k)%nat -> quiet c0 (poll_status j w)) ->
  Z.land (poll_status k w) CMD_ERR <> 0 ->
  poll n c0 w =
  (Z.land (poll_status k w) CMD_CTR + 1, iter_state (S k) read_status w).
Proof.
  intros Hk Hq Herr.
  replace n with (k + S (n - S k))%nat by lia.
  rewrite poll_skip by exact Hq. rewrite poll_step.
  change (poll_status 0 (iter_state k read_status w)) with (poll_status k w).
  apply truthy_true in Herr. rewrite Herr, iter_state_last. reflexivity.
Qed.

Lemma poll_wrapped (k : nat) :
  forall (n : nat) (w : TwoWire D),
  (k < n)%nat ->
  (forall j, (j <= k)%nat -> Z.land (poll_status j w) CMD_ERR = 0) ->
  Z.land (poll_status k w) CMD_CTR = 0 ->
  fst (poll n 15 w) = 0.
Proof.
  induction k as [|k IH]; intros n w Hk Herr Hctr;
    (destruct n as [|n]; [lia |]); rewrite poll_step;
    (assert (E0 : truthy (Z.land (poll_status 0 w) CMD_ERR) = false)
      by (apply truthy_false, Herr; lia)); rewrite E0.
  - assert (E : truthy (Z.land (Z.b2z (15 =? 15))
                  (Z.b2z (Z.land (poll_status 0 w) CMD_CTR =? 0))) = true)
      by (apply wrapped_iff; auto).
    rewrite E, orb_true_r. reflexivity.
  - destruct (_ || _); [reflexivity |].
    apply IH; [lia | | exact Hctr].
    intros j Hj. rewrite <- poll_status_succ. apply Herr. lia.
Qed.

(** Every result of the polling loop is a code between 0 and 17. *)
Lemma poll_range (n : nat) (c0 : Z) (w : TwoWire D) :
  0 <= fst (poll n c0 w) <= 17.
Proof.
  revert w. induction n as [|n IH]; intros w; [simpl; lia |].
  rewrite poll_step.
  pose proof (counter_range (fst (read_status w))) as Hc.
  change (uint8 (fst (read_status w))) with (poll_status 0 w) in Hc.
  destruct (truthy _); [cbn [fst]; lia |].
  destruct (_ || _); [cbn [fst]; lia | apply IH].
Qed.

(** Every result of [send_command] is a code between -16 and 17. *)
Lemma send_command_range (code : Z) (force : bool) (w : TwoWire D) :
  -16 <= fst (send_command code force w) <= 17.
Proof.
  rewrite send_command_eq.
  pose proof (counter_range (fst (read_status w))) as Hc.
  change (uint8 (fst (read_status w))) with (poll_status 0 w) in Hc.
  destruct (_ && _); [cbn [fst]; lia |].
  pose proof (poll_range (Z.to_nat MAX_RETRIES)
                (Z.land (poll_status 0 w) CMD_CTR) (issued code w)).
  lia.
Qed.

(** C3: if the first read of the status register shows the error flag and
    [force] is false, [send_command] returns minus (the counter of that read
    plus one), a strictly negative integer, and leaves the bus as that read
    left it: nothing is written to the command register. *)
Theorem send_command_preexisting_error (code : Z) (w : TwoWire D) :
  Z.land (poll_status 0 w) CMD_ERR <> 0 ->
  fst (send_command code false w) = - (Z.land (poll_status 0 w) CMD_CTR + 1)
  /\ fst (send_command code false w) < 0
  /\ snd (send_command code false w) = snd (read_status w)
  /\ command_writes (trace (snd (send_command code false w))) =
     command_writes (trace w).
Proof.
  intros Herr. rewrite send_command_aborts by exact Herr. cbn [fst snd].
  pose proof (counter_range (fst (read_status w))) as Hc.
  change (uint8 (fst (read_status w))) with (poll_status 0 w) in Hc.
  repeat split; [lia | apply read_status_command_writes].
Qed.

(** C4: when the counter read before the command is 15 and, within the
    retry budget, a status read shows the error flag clear and the counter
    at 0, no earlier status read having shown the error flag,
    [send_command] returns 0. *)
Theorem send_command_wraparound (code : Z) (force : bool) (w : TwoWire D)
    (k : nat) :
  Z.land (poll_status 0 w) CMD_ERR = 0 \/ force = true ->
  Z.land (poll_status 0 w) CMD_CTR = 15 ->
  (k < Z.to_nat MAX_RETRIES)%nat ->
  (forall j, (j < k)%nat ->
     Z.land (poll_status j (issued code w)) CMD_ERR = 0) ->
  Z.land (poll_status k (issued code w)) CMD_ERR = 0 ->
  Z.land (poll_status k (issued code w)) CMD_CTR = 0 ->
  fst (send_command code force w) = 0.
Proof.
  intros Hgo H15 Hk Hbefore Herr Hctr.
  rewrite send_command_proceeds by exact Hgo. rewrite H15.
  apply (poll_wrapped k); [exact Hk | | exact Hctr].
  intros j Hj. destruct (Nat.eq_dec j k) as [-> | Hne];
    [exact Herr | apply Hbefore; lia].
Qed.

(** C5: when the command is issued and each of the [MAX_RETRIES] status
    reads that follow is quiet (error flag clear, counter not advanced, not
    even by wrapping), [send_command] returns 17 after exactly
    [MAX_RETRIES] = 10000 status reads; 17 differs from 0 and from every code
    derived from a counter, those being between -16 and -1 or between 1 and
    16. *)
Theorem send_command_timeout (code : Z) (force : bool) (w : TwoWire D) :
  Z.land (poll_status 0 w) CMD_ERR = 0 \/ force = true ->
  (forall k, (k < Z.to_nat MAX_RETRIES)%nat ->
     quiet (Z.land (poll_status 0 w) CMD_CTR)
           (poll_status k (issued code w))) ->
  fst (send_command code force w) = 17
  /\ snd (send_command code force w) =
     iter_state (Z.to_nat MAX_RETRIES) read_status (issued code w)
  /\ reads (trace (snd (send_command code force w))) =
     (reads (trace (issued code w)) + Z.to_nat MAX_RETRIES)%nat
  /\ MAX_RETRIES = 10000
  /\ (forall status,
        -16 <= (Z.land (uint8 status) CMD_CTR + 1) * -1 <= -1
        /\ 1 <= Z.land (uint8 status) CMD_CTR + 1 <= 16).
Proof.
  intros Hgo Hq.
  rewrite send_command_proceeds by exact Hgo.
  rewrite poll_exhausted by exact Hq. cbn [fst snd].
  repeat split; try reflexivity;
    try (pose proof (counter_range status); lia).
  apply iter_read_status_reads.
Qed.

(** C6: once the command is issued, if the status reads are quiet up to one,
    within the retry budget, that shows the error flag, [send_command]
    returns the counter of that read plus one, between 1 and 16, and stops
    at that read. *)
Theorem send_command_inflight_error (code : Z) (force : bool) (w : TwoWire D)
    (k : nat) :
  Z.land (poll_status 0 w) CMD_ERR = 0 \/ force = true ->
  (k < Z.to_nat MAX_RETRIES)%nat ->
  (forall j, (j < k)%nat ->
     quiet (Z.land (poll_status 0 w) CMD_CTR)
           (poll_status j (issued code w))) ->
  Z.land (poll_status k (issued code w)) CMD_ERR <> 0 ->
  fst (send_command code force w) =
    Z.land (poll_status k (issued code w)) CMD_CTR + 1
  /\ 1 <= fst (send_command code force w) <= 16
  /\ snd (send_command code force w) =
     iter_state (S k) read_status (issued code w).
Proof.
  intros Hgo Hk Hq Herr.
  rewrite send_command_proceeds by exact Hgo.
  rewrite (poll_error k) by assumption. cbn [fst snd].
  pose proof (counter_range (fst (read_status
    (iter_state k read_status (issued code w))))) as Hc.
  change (uint8 (fst (read_status (iter_state k read_status (issued code w)))))
    with (poll_status k (issued code w)) in Hc.
  repeat split; lia.
Qed.

(** C9: with [CMD_ERR] one of the upper four bits of the status byte, when
    the first read of the status register fails (returns -1) and [force] is
    false, [send_command] returns -16; it returns the same -16 when that
    read succeeds and shows the error flag with the counter at 15. *)
Theorem send_command_bus_failure (code : Z) (w w' : TwoWire D) :
  flag_bit CMD_ERR ->
  fst (read_status w) = -1 ->
  fst (read_status w') <> -1 ->
  Z.land (poll_status 0 w') CMD_ERR <> 0 ->
  Z.land (poll_status 0 w') CMD_CTR = 15 ->
  fst (send_command code false w) = -16
  /\ fst (send_command code false w') = -16.
Proof.
  intros Hbit Hfail Hread Herr H15.
  assert (Hs : poll_status 0 w = 255).
  { unfold poll_status, iter_state. rewrite Hfail. reflexivity. }
  split.
  - rewrite send_command_aborts; rewrite Hs.
    + reflexivity.
    + destruct Hbit as [-> | [-> | [-> | ->]]]; discriminate.
  - rewrite send_command_aborts by exact Herr. rewrite H15. reflexivity.
Qed.

End CommandProtocol.

(** *** The command protocol on concrete peers *)

Lemma constant_peer_read_status {hdr : Si115X_h} (w : TwoWire constant_peer) :
  fst (read_status w) =
    match map uint8 (take (Z.to_nat 1) (answer (bus w))) with
    | [] => -1
    | b :: _ => b
    end
  /\ bus (snd (read_status w)) = bus w.
Proof.
  unfold read_status. rewrite read_register_eq. unfold delivered.
  cbn [peer_receive peer_transmit constant_peer_I2C fst snd].
  destruct (map uint8 _); split; reflexivity.
Qed.

Lemma constant_peer_poll_status {hdr : Si115X_h} (k : nat)
    (w : TwoWire constant_peer) :
  poll_status k w = poll_status 0 w /\ bus (iter_state k read_status w) = bus w.
Proof.
  revert w. induction k as [|k IH]; intros w; [split; reflexivity |].
  rewrite poll_status_succ. cbn [iter_state].
  destruct (IH (snd (read_status w))) as [-> ->].
  destruct (constant_peer_read_status w) as [Hv Hbus].
  split; [| exact Hbus].
  unfold poll_status. cbn [iter_state].
  destruct (constant_peer_read_status (snd (read_status w))) as [Hv' _].
  rewrite Hv', Hv, Hbus. reflexivity.
Qed.

Section Datasheet.
#[local] Existing Instance datasheet.

Lemma send_command_preexisting_error_witness :
  let w := idle (Constant [0x12]) in
  Z.land (poll_status 0 w) CMD_ERR <> 0
  /\ fst (send_command 0x13 false w) = - (2 + 1)
  /\ command_writes
       (trace (snd (send_command 0x13 false w))) = [].
Proof.
  intros w.
  assert (Herr : Z.land (poll_status 0 w) CMD_ERR <> 0)
    by (vm_compute; discriminate).
  split; [exact Herr |].
  destruct (send_command_preexisting_error 0x13 w Herr)
    as (Hval & _ & _ & Hcmd).
  split; [exact Hval | exact Hcmd].
Defined.

Lemma send_command_wraparound_witness :
  let w := idle [[15]; [15]; [15]; [0]] in
  Z.land (poll_status 0 w) CMD_CTR = 15
  /\ poll_status 2 (issued 0x13 w) = 0
  /\ fst (send_command 0x13 false w) = 0.
Proof.
  intros w. split; [reflexivity |]. split; [reflexivity |].
  apply (send_command_wraparound 0x13 false w 2).
  - left. reflexivity.
  - reflexivity.
  - unfold MAX_RETRIES. lia.
  - intros j Hj. destruct j as [|[|j]]; [reflexivity | reflexivity | lia].
  - reflexivity.
  - reflexivity.
Defined.

Lemma send_command_timeout_witness :
  let w := idle (Constant [5]) in
  (forall k, (k < Z.to_nat MAX_RETRIES)%nat ->
     quiet 5 (poll_status k
                (issued 0x13 w)))
  /\ fst (send_command 0x13 false w) = 17
  /\ reads (trace (snd (send_command 0x13 false w))) =
     (1 + Z.to_nat 10000)%nat.
Proof.
  intros w.
  assert (Hq : forall k, (k < Z.to_nat MAX_RETRIES)%nat ->
     quiet (Z.land (poll_status 0 w) CMD_CTR)
           (poll_status k
              (issued 0x13 w))).
  { intros k _.
    destruct (constant_peer_poll_status k
                (issued 0x13 w)) as [-> _].
    vm_compute. repeat split; intros; intuition discriminate. }
  split; [exact Hq |].
  assert (Hgo : Z.land (poll_status 0 w) CMD_ERR = 0 \/ false = true)
    by (left; reflexivity).
  destruct (send_command_timeout 0x13 false w Hgo Hq)
    as (Hval & _ & Hreads & _).
  split; [exact Hval |].
  rewrite Hreads, issued_reads. reflexivity.
Defined.

Lemma send_command_inflight_error_witness :
  let w := idle [[0x03]; [0x03]; [0x13]] in
  quiet 3 (poll_status 0 (issued 0x13 w))
  /\ poll_status 1 (issued 0x13 w) = 0x13
  /\ fst (send_command 0x13 false w) = 3 + 1.
Proof.
  intros w.
  assert (Hq : quiet 3 (poll_status 0
                          (issued 0x13 w))).
  { vm_compute. repeat split; intros; intuition discriminate. }
  split; [exact Hq |]. split; [reflexivity |].
  destruct (send_command_inflight_error 0x13 false w 1) as (Hval & _ & _).
  - left. reflexivity.
  - unfold MAX_RETRIES. lia.
  - intros j Hj. destruct j as [|j]; [exact Hq | lia].
  - vm_compute. discriminate.
  - rewrite Hval. reflexivity.
Defined.

Lemma send_command_bus_failure_witness :
  let dead := idle (Constant []) in
  let failed := idle (Constant [0x1F]) in
  fst (read_status dead) = -1
  /\ fst (read_status failed) = 0x1F
  /\ fst (send_command 0x13 false dead) = -16
  /\ fst (send_command 0x13 false failed) = -16.
Proof.
  intros dead failed. split; [reflexivity |]. split; [reflexivity |].
  apply (send_command_bus_failure 0x13 dead failed).
  - left. reflexivity.
  - reflexivity.
  - vm_compute. discriminate.
  - vm_compute. discriminate.
  - reflexivity.
Defined.

End Datasheet.

(** ** The parameter access sub-protocol *)

Section ParameterAccess.
Context {hdr : Si115X_h} {D : Type} `{I2CPeer D}.

(** One pass of [param_set] snapshots the status register, stages the value,
    writes the tagged command and reads the status register again; the loop
    condition it returns is "the second read is greater than the first". *)
Lemma param_set_pass_eq (loc val : Z) (w : TwoWire D) :
  let committed :=
    snd (write_data DEVICE_ADDRESS
           [COMMAND; uint8 (Z.lor loc (Z.shiftl 2 6))]
           (snd (write_data DEVICE_ADDRESS [HOSTIN_0; val]
                   (snd (read_status w))))) in
  param_set_pass loc val w =
  (fst (read_status committed) >? fst (read_status w),
   snd (read_status committed)).
Proof.
  unfold param_set_pass, read_status, bind, ret.
  destruct (read_register DEVICE_ADDRESS RESPONSE_0 1 w) as [c w0].
  cbn [fst snd].
  destruct (write_data DEVICE_ADDRESS [HOSTIN_0; val] w0) as [[] w1].
  cbn [fst snd].
  destruct (write_data DEVICE_ADDRESS _ w1) as [[] w2].
  cbn [fst snd].
  destruct (read_register DEVICE_ADDRESS RESPONSE_0 1 w2) as [r w3].
  reflexivity.
Qed.

(** The loop of [param_set] runs another pass exactly when the pass just
    made returns [true]. *)
Lemma param_set_step (fuel : nat) (loc val : Z) (w : TwoWire D) :
  param_set (S fuel) loc val w =
  if fst (param_set_pass loc val w)
  then param_set fuel loc val (snd (param_set_pass loc val w))
  else Some (snd (param_set_pass loc val w)).
Proof.
  unfold param_set. cbn [do_while].
  destruct (param_set_pass loc val w) as [again w']. reflexivity.
Qed.

End ParameterAccess.

Section ParameterAccessOnTheDatasheet.
#[local] Existing Instance datasheet.

(** C1 (the code on two buses): on a bus whose status register reads 3
    before and after the commit, [param_set] makes one pass and returns; on
    a bus where it reads 3 before the commit and 4 after, [param_set] makes
    a second pass, and returns after it because the register then reads 4
    both times. *)
Theorem param_set_repeats_on_increase :
  let unchanged := idle [[3]; [3]] in
  let increased := idle [[3]; [4]; [4]; [4]] in
  (command_writes ∘ trace) <$> param_set 1 2 7 unchanged = Some [0x82]
  /\ param_set 1 2 7 increased = None
  /\ (command_writes ∘ trace) <$> param_set 2 2 7 increased
     = Some [0x82; 0x82].
Proof.
  intros unchanged increased.
  repeat split; vm_compute; reflexivity.
Qed.

End ParameterAccessOnTheDatasheet.

(** *** Round trip of a parameter against the device *)

Section RoundTrip.
Context {hdr : Si115X_h}.
Hypothesis staging_is_not_command : HOSTIN_0 <> COMMAND.
Hypothesis status_is_not_result : RESPONSE_0 <> RESPONSE_1.

Lemma command_tag (tag loc : Z) :
  tag = 1 \/ tag = 2 ->
  0 <= loc < 64 ->
  Z.shiftr (uint8 (uint8 (Z.lor loc (Z.shiftl tag 6)))) 6 = tag
  /\ Z.land (uint8 (uint8 (Z.lor loc (Z.shiftl tag 6)))) 63 = loc.
Proof.
  intros Htag Hloc.
  rewrite <- (Z2Nat.id loc) by lia.
  assert (Hn : (Z.to_nat loc < 64)%nat) by lia.
  revert Hn. generalize (Z.to_nat loc) as n. intros n Hn.
  destruct Htag as [-> | ->];
    do 64 (destruct n as [|n]; [vm_compute; split; reflexivity |]); lia.
Qed.

Lemma device_read (reg : Z) (w : TwoWire Si115X_device) :
  fst (read_register DEVICE_ADDRESS reg 1 w) =
    uint8 (device_read_reg (device_select reg (bus w)))
  /\ bus (snd (read_register DEVICE_ADDRESS reg 1 w)) =
     device_select reg (bus w).
Proof.
  rewrite read_register_eq. unfold delivered.
  cbn [peer_receive peer_transmit Si115X_peer].
  rewrite Z.eqb_refl. cbn [fst snd]. split; reflexivity.
Qed.

Lemma device_write (reg v : Z) (w : TwoWire Si115X_device) :
  bus (snd (write_data DEVICE_ADDRESS [reg; v] w)) =
  device_write_reg v (device_select reg (bus w)).
Proof.
  rewrite write_data_eq. cbn [snd bus peer_receive Si115X_peer].
  rewrite Z.eqb_refl. reflexivity.
Qed.

Lemma device_status (w : TwoWire Si115X_device) :
  0 <= cmd_ctr (bus w) < 16 ->
  fst (read_status w) = cmd_ctr (bus w)
  /\ bus (snd (read_status w)) = device_select RESPONSE_0 (bus w).
Proof.
  intros Hc. destruct (device_read RESPONSE_0 w) as [Hv Hb].
  unfold read_status. split; [| exact Hb].
  rewrite Hv. unfold device_read_reg, device_select. cbn [reg_ptr cmd_ctr].
  rewrite Z.eqb_refl. apply uint8_small. lia.
Qed.

Lemma device_param_set_pass (loc val : Z) (w : TwoWire Si115X_device) :
  0 <= loc < 64 -> 0 <= val < 256 -> 0 <= cmd_ctr (bus w) < 16 ->
  fst (param_set_pass loc val w) =
    ((cmd_ctr (bus w) + 1) mod 16 >? cmd_ctr (bus w))
  /\ bus (snd (param_set_pass loc val w)) =
     mkDevice RESPONSE_0 ((cmd_ctr (bus w) + 1) mod 16) val val
              (<[loc := val]> (param_table (bus w))).
Proof.
  intros Hloc Hval Hctr. rewrite param_set_pass_eq. cbn zeta. cbn [fst snd].
  destruct (device_status w Hctr) as [Hc Hb]. rewrite Hc.
  set (w1 := snd (write_data DEVICE_ADDRESS [HOSTIN_0; val] (snd (read_status w)))).
  assert (H1 : bus w1 = mkDevice HOSTIN_0 (cmd_ctr (bus w)) val
                          (response1 (bus w)) (param_table (bus w))).
  { subst w1. rewrite device_write, Hb.
    unfold device_write_reg, device_select. cbn [reg_ptr cmd_ctr hostin0 response1 param_table].
    rewrite Z.eqb_refl, uint8_small by lia. reflexivity. }
  set (w2 := snd (write_data DEVICE_ADDRESS _ w1)).
  assert (H2 : bus w2 = mkDevice COMMAND ((cmd_ctr (bus w) + 1) mod 16) val val
                          (<[loc := val]> (param_table (bus w)))).
  { subst w2. rewrite device_write, H1.
    unfold device_write_reg, device_select. cbn [reg_ptr cmd_ctr hostin0 response1 param_table].
    destruct (Z.eqb_spec COMMAND HOSTIN_0) as [E | _]; [congruence |].
    rewrite Z.eqb_refl. unfold device_command.
    destruct (command_tag 2 loc) as [-> ->]; [auto | lia |].
    reflexivity. }
  assert (Hctr2 : 0 <= cmd_ctr (bus w2) < 16).
  { rewrite H2. cbn [cmd_ctr]. apply Z.mod_pos_bound. lia. }
  destruct (device_status w2 Hctr2) as [Hc2 Hb2].
  rewrite Hc2, Hb2, H2. split; reflexivity.
Qed.

Lemma device_param_query_pass (loc : Z) (w : TwoWire Si115X_device) :
  0 <= loc < 64 -> 0 <= cmd_ctr (bus w) < 16 ->
  fst (param_query_pass loc w) =
    ((cmd_ctr (bus w) + 1) mod 16 >? cmd_ctr (bus w))
  /\ bus (snd (param_query_pass loc w)) =
     mkDevice RESPONSE_0 ((cmd_ctr (bus w) + 1) mod 16) (hostin0 (bus w))
              (default 0 (param_table (bus w) !! loc)) (param_table (bus w)).
Proof.
  intros Hloc Hctr.
  destruct (device_status w Hctr) as [Hc Hb].
  unfold param_query_pass, bind, ret. fold (read_status (D := Si115X_device)).
  destruct (read_status w) as [c w0]. cbn [fst snd] in Hc, Hb. subst c.
  destruct (write_data DEVICE_ADDRESS _ w0) as [[] w1] eqn:E1.
  assert (H1 : bus w1 = mkDevice COMMAND ((cmd_ctr (bus w) + 1) mod 16)
                          (hostin0 (bus w))
                          (default 0 (param_table (bus w) !! loc))
                          (param_table (bus w))).
  { change w1 with (snd (tt, w1)). rewrite <- E1, device_write, Hb.
    unfold device_write_reg, device_select.
    cbn [reg_ptr cmd_ctr hostin0 response1 param_table].
    destruct (Z.eqb_spec COMMAND HOSTIN_0) as [E | _]; [congruence |].
    rewrite Z.eqb_refl. unfold device_command.
    destruct (command_tag 1 loc) as [-> ->]; [auto | lia |].
    reflexivity. }
  assert (Hctr1 : 0 <= cmd_ctr (bus w1) < 16).
  { rewrite H1. cbn [cmd_ctr]. apply Z.mod_pos_bound. lia. }
  destruct (device_status w1 Hctr1) as [Hc1 Hb1].
  destruct (read_status w1) as [r w2]. cbn [fst snd] in *.
  rewrite Hc1, Hb1, H1. split; reflexivity.
Qed.

(** Against the device, the loop of [param_set] runs until the counter
    wraps from 15 to 0. *)
Lemma device_param_set_loop (loc val : Z) (n : nat) :
  0 <= loc < 64 -> 0 <= val < 256 ->
  forall (fuel : nat) (w : TwoWire Si115X_device),
  cmd_ctr (bus w) = 15 - Z.of_nat n -> (n <= 15)%nat -> (n < fuel)%nat ->
  exists w',
    param_set fuel loc val w = Some w'
    /\ bus w' = mkDevice RESPONSE_0 0 val val
                        (<[loc := val]> (param_table (bus w))).
Proof.
  intros Hloc Hval. induction n as [|n IH]; intros fuel w Hc Hn Hfuel;
    (destruct fuel as [|fuel]; [lia |]); rewrite param_set_step;
    (destruct (device_param_set_pass loc val w) as [Hagain Hbus];
      [lia | lia | lia |]); rewrite Hagain, Hc.
  - change ((15 - Z.of_nat 0 + 1) mod 16 >? 15 - Z.of_nat 0) with false.
    eexists. split; [reflexivity |]. rewrite Hbus, Hc. reflexivity.
  - assert (Hmod : (15 - Z.of_nat (S n) + 1) mod 16 = 15 - Z.of_nat n)
      by (rewrite Z.mod_small; lia).
    rewrite Hmod.
    destruct (Z.gtb_spec (15 - Z.of_nat n) (15 - Z.of_nat (S n))); [| lia].
    destruct (IH fuel (snd (param_set_pass loc val w))) as (w' & Hrun & Hw');
      [rewrite Hbus; cbn [cmd_ctr]; rewrite Hc; exact Hmod | lia | lia |].
    exists w'. split; [exact Hrun |].
    rewrite Hw', Hbus. cbn [param_table]. rewrite insert_insert_eq.
    reflexivity.
Qed.

Lemma device_param_query_loop (loc : Z) (n : nat) :
  0 <= loc < 64 ->
  forall (fuel : nat) (w : TwoWire Si115X_device),
  cmd_ctr (bus w) = 15 - Z.of_nat n -> (n <= 15)%nat -> (n < fuel)%nat ->
  exists w',
    do_while fuel (param_query_pass loc) w = Some w'
    /\ bus w' = mkDevice RESPONSE_0 0 (hostin0 (bus w))
                        (default 0 (param_table (bus w) !! loc))
                        (param_table (bus w)).
Proof.
  intros Hloc. induction n as [|n IH]; intros fuel w Hc Hn Hfuel;
    (destruct fuel as [|fuel]; [lia |]); cbn [do_while];
    (destruct (device_param_query_pass loc w) as [Hagain Hbus];
      [lia | lia |]);
    destruct (param_query_pass loc w) as [again w1]; cbn [fst snd] in *;
    rewrite Hagain, Hc.
  - change ((15 - Z.of_nat 0 + 1) mod 16 >? 15 - Z.of_nat 0) with false.
    eexists. split; [reflexivity |]. rewrite Hbus, Hc. reflexivity.
  - assert (Hmod : (15 - Z.of_nat (S n) + 1) mod 16 = 15 - Z.of_nat n)
      by (rewrite Z.mod_small; lia).
    rewrite Hmod.
    destruct (Z.gtb_spec (15 - Z.of_nat n) (15 - Z.of_nat (S n))); [| lia].
    destruct (IH fuel w1) as (w' & Hrun & Hw');
      [rewrite Hbus; cbn [cmd_ctr]; rewrite Hc; exact Hmod | lia | lia |].
    exists w'. split; [exact Hrun |].
    rewrite Hw', Hbus. reflexivity.
Qed.

(** Against the device that completes a command as it is written, and
    only because the loops of [param_set] and [param_query] then run until
    the counter wraps from 15 to 0: for a parameter location below 64 and a
    byte value, [param_set] returns and [param_query] of the same location
    then returns the value; 16 passes of fuel suffice for each loop. *)
Lemma instant_device_round_trip (loc val : Z) (fuel : nat)
    (w : TwoWire Si115X_device) :
  0 <= loc < 64 -> 0 <= val < 256 ->
  0 <= cmd_ctr (bus w) < 16 ->
  (16 <= fuel)%nat ->
  exists w1 w2,
    param_set fuel loc val w = Some w1
    /\ param_table (bus w1) !! loc = Some val
    /\ param_query fuel loc w1 = Some (val, w2).
Proof.
  intros Hloc Hval Hctr Hfuel.
  destruct (device_param_set_loop loc val (Z.to_nat (15 - cmd_ctr (bus w)))
              Hloc Hval fuel w) as (w1 & Hset & Hw1); [lia | lia | lia |].
  destruct (device_param_query_loop loc 15 Hloc fuel w1)
    as (w' & Hloop & Hw'); [rewrite Hw1; reflexivity | lia | lia |].
  assert (Htab : param_table (bus w1) !! loc = Some val)
    by (rewrite Hw1; apply lookup_insert_eq).
  exists w1, (snd (read_register DEVICE_ADDRESS RESPONSE_1 1 w')).
  split; [exact Hset |]. split; [exact Htab |].
  unfold param_query. rewrite Hloop.
  destruct (device_read RESPONSE_1 w') as [Hv _].
  destruct (read_register DEVICE_ADDRESS RESPONSE_1 1 w') as [v w2].
  cbn [fst snd] in *. rewrite Hv, Hw', Htab.
  unfold device_read_reg, device_select. cbn [reg_ptr response1].
  destruct (Z.eqb_spec RESPONSE_1 RESPONSE_0) as [E | _]; [congruence |].
  rewrite Z.eqb_refl. change (default 0 (Some val)) with val.
  rewrite uint8_small by lia. reflexivity.
Qed.

End RoundTrip.

Section RoundTripOnTheDatasheet.
#[local] Existing Instance datasheet.

(** C2 (the code against a device that takes time): on the device that
    needs five answered reads to complete a command, starting idle with an
    empty table and the counter at 0, [param_set] of 7 at location 2
    followed by [param_query] of location 2 returns 0, not 7.  Each of the
    two makes a single pass (one command write each: 130, then 66), because
    the counter has not moved when it is read again, and the result
    register is read while both commands are still pending.  The device
    does store the staged value: ten status reads later its table holds 7
    at location 2 and its result register reads 7.  On the same device
    without latency the round trip returns 7; with any latency from 4 to
    20 and any initial counter it returns 0. *)
Theorem param_round_trip_fails_on_slow_device :
  let slow := idle (mkSlow (mkDevice 0 0 0 0 ∅) 5 0 []) in
  let instant := idle (mkSlow (mkDevice 0 0 0 0 ∅) 0 0 []) in
  let after w := snd <$> (param_set 16 2 7 w ≫= param_query 16 2) in
  let settled w := iter_state 10 read_status <$> after w in
  fst <$> (param_set 16 2 7 slow ≫= param_query 16 2) = Some 0
  /\ (command_writes ∘ trace) <$> after slow = Some [130; 66]
  /\ (pending ∘ bus) <$> after slow = Some [130; 66]
  /\ (fun w => param_table (core (bus w)) !! 2) <$> settled slow
     = Some (Some 7)
  /\ (fun w => fst (read_register DEVICE_ADDRESS RESPONSE_1 1 w))
       <$> settled slow = Some 7
  /\ fst <$> (param_set 16 2 7 instant ≫= param_query 16 2) = Some 7
  /\ forallb (fun L =>
       forallb (fun c =>
         bool_decide
           (fst <$> (param_set 16 2 7
                       (idle (mkSlow (mkDevice 0 c 0 0 ∅) L 0 []))
                     ≫= param_query 16 2) = Some 0))
         (Z.of_nat <$> seq 0 16))
       (seq 4 17) = true.
Proof.
  intros slow instant after settled.
  repeat split; vm_compute; reflexivity.
Qed.

End RoundTripOnTheDatasheet.

(** ** The instruction decoder *)

Section InstructionDecoder.
Local Open Scope string_scope.

Lemma decode_instruction_malformed (line v t : string) (params : list string) :
  String.words line = v :: t :: params ->
  match params with
  | [a] => number a = None
  | [a; b] => number a = None \/ number b = None
  | _ => False
  end ->
  decode_instruction line = mkInstruction UNK line None None.
Proof.
  intros Hwords Hbad. unfold decode_instruction. rewrite Hwords.
  destruct (verb v); try reflexivity;
    (destruct params as [|a [|b [|c params]]]; try reflexivity;
     [contradiction
     | rewrite Hbad; reflexivity
     | destruct Hbad as [-> | Hb];
       [reflexivity | rewrite Hb; destruct (number a); reflexivity]]).
Qed.

(** C10: [decode_instruction] maps "SET gain 5 0" to [SET] on "gain" with
    parameters 5 and 0, "MSR temp" to [MSR] on "temp" with both parameters
    at their default, "foo bar" and the empty line to [UNK]; and a line with
    two leading fields and a numeric field that is not a number is mapped,
    as a value of [Instruction], to [UNK] with the whole line kept in
    [target]. *)
Theorem decode_instruction_examples :
  decode_instruction "SET gain 5 0" =
    mkInstruction SET "gain" (Some (inject_Z 5)) (Some (inject_Z 0))
  /\ decode_instruction "MSR temp" = mkInstruction MSR "temp" None None
  /\ type (decode_instruction "foo bar") = UNK
  /\ type (decode_instruction "") = UNK
  /\ decode_instruction "SET gain 5x 0" =
       mkInstruction UNK "SET gain 5x 0" None None
  /\ (forall line v t a,
        String.words line = [v; t; a] -> number a = None ->
        decode_instruction line = mkInstruction UNK line None None)
  /\ (forall line v t a b,
        String.words line = [v; t; a; b] ->
        number a = None \/ number b = None ->
        decode_instruction line = mkInstruction UNK line None None).
Proof.
  do 5 (split; [vm_compute; reflexivity |]).
  split.
  - intros line v t a Hw Ha.
    exact (decode_instruction_malformed line v t [a] Hw Ha).
  - intros line v t a b Hw Hab.
    exact (decode_instruction_malformed line v t [a; b] Hw Hab).
Qed.

End InstructionDecoder.

Section Examples.
#[local] Existing Instance datasheet.

(** A device without a pending error that completes the command at once. *)
Example send_command_fresh_device :
  fst (send_command 0x13 false (idle (mkDevice 0 0 0 0 ∅))) = 0.
Proof. vm_compute. reflexivity. Qed.

(** The counter of the device wraps from 15 to 0 on the command. *)
Example send_command_device_wraps :
  fst (send_command 0x13 false (idle (mkDevice 0 15 0 0 ∅))) = 0.
Proof. vm_compute. reflexivity. Qed.

(** A bus nobody answers on: the failed read looks like a device error. *)
Example send_command_dead_bus :
  fst (send_command 0x13 false (idle (Constant []))) = -16.
Proof. vm_compute. reflexivity. Qed.

Example read_output_complete :
  fst (read_output (idle [[0x12]; [0x34]; [0x56]; [0x78]])) =
  mkReading 0 (Some 0x1234) (Some 0x5678).
Proof. vm_compute. reflexivity. Qed.

Example read_output_partial :
  fst (read_output (idle [[0x12]; []; [0x56]; [0x78]])) =
  mkReading (-1) None None.
Proof. vm_compute. reflexivity. Qed.

(** Against the device, [param_set] commits the value once per pass until
    the counter wraps: seven passes from counter 9. *)
Example param_set_device_passes :
  (command_writes ∘ trace) <$> param_set 16 2 7 (idle (mkDevice 0 9 0 0 ∅)) =
  Some (replicate 7 0x82).
Proof. vm_compute. reflexivity. Qed.

End Examples.

(** * Further properties of the driver *)

(** ** Register reads *)

Section RegisterReads.
Context {hdr : Si115X_h} {D : Type} `{I2CPeer D}.

(** [ReadByte] makes the bus transactions of a one-byte [read_register] on
    the sensor and returns its result as a byte: a failed read, which
    [read_register] reports as -1, comes out of [ReadByte] as 255, the value
    it also returns for a register that holds 0xFF. *)
Theorem ReadByte_truncates_read_register (Reg : Z) (w : TwoWire D) :
  ReadByte Reg w =
    (uint8 (fst (read_register DEVICE_ADDRESS Reg 1 w)),
     snd (read_register DEVICE_ADDRESS Reg 1 w))
  /\ (fst (read_register DEVICE_ADDRESS Reg 1 w) = -1 ->
      fst (ReadByte Reg w) = 255)
  /\ (0 <= fst (read_register DEVICE_ADDRESS Reg 1 w) ->
      fst (ReadByte Reg w) = fst (read_register DEVICE_ADDRESS Reg 1 w))
  /\ 0 <= fst (ReadByte Reg w) <= 255.
Proof.
  assert (E : ReadByte Reg w =
    (uint8 (fst (read_register DEVICE_ADDRESS Reg 1 w)),
     snd (read_register DEVICE_ADDRESS Reg 1 w))).
  { rewrite read_register_eq.
    unfold ReadByte, delivered, bind, ret, Wire_beginTransmission, Wire_write,
      Wire_endTransmission, Wire_requestFrom, Wire_read.
    cbn [txAddress txBuffer rxBuffer bus trace app].
    destruct (peer_transmit DEVICE_ADDRESS 1
                (peer_receive DEVICE_ADDRESS [Reg] (bus w))) as [data d'].
    cbn [fst snd rxBuffer txAddress txBuffer bus trace].
    rewrite <- app_assoc.
    destruct (map uint8 (take (Z.to_nat 1) data)) as [|b rest]; reflexivity. }
  split; [exact E |]. rewrite E. cbn [fst].
  pose proof (read_register_value DEVICE_ADDRESS Reg 1 w) as V.
  split; [intros ->; reflexivity |].
  split; [intros Hv; apply uint8_small; lia | apply uint8_range].
Qed.

(** [read_register] starts from a fresh transmission and a fresh receive
    buffer: its result and what it does to the peer depend on the peer
    alone, not on bytes left in the buffers of [Wire], and a one-byte read
    leaves no received byte behind. *)
Theorem read_register_ignores_stale_buffers (addr reg bytesOfData : Z)
    (w : TwoWire D) :
  fst (read_register addr reg bytesOfData w) =
    fst (read_register addr reg bytesOfData (idle (bus w)))
  /\ bus (snd (read_register addr reg bytesOfData w)) =
     bus (snd (read_register addr reg bytesOfData (idle (bus w))))
  /\ txBuffer (snd (read_register addr reg bytesOfData w)) = []
  /\ rxBuffer (snd (read_register addr reg 1 w)) = [].
Proof.
  rewrite !read_register_eq. unfold delivered, idle. cbn [bus].
  repeat split.
  - destruct (map uint8 (take (Z.to_nat bytesOfData) _)); reflexivity.
  - destruct (map uint8 (take (Z.to_nat bytesOfData) _)); reflexivity.
  - destruct (map uint8 (take (Z.to_nat bytesOfData) _)); reflexivity.
  - destruct (fst (peer_transmit addr 1 (peer_receive addr [reg] (bus w))))
      as [|b [|b' rest]]; reflexivity.
Qed.

End RegisterReads.

(** ** More on the command protocol *)

Section CommandOutcomes.
Context {hdr : Si115X_h} {D : Type} `{I2CPeer D}.

Lemma continue_quiet (c0 status : Z) :
  truthy (Z.land status CMD_ERR) = false ->
  (Z.land status CMD_CTR >? c0)
  || truthy (Z.land (Z.b2z (c0 =? 15))
                    (Z.b2z (Z.land status CMD_CTR =? 0))) = false ->
  quiet c0 status.
Proof.
  intros Herr Hadv. apply orb_false_elim in Hadv as [Hgt Hwrap].
  split; [now apply truthy_false |]. split.
  - destruct (Z.gtb_spec (Z.land status CMD_CTR) c0); [discriminate | lia].
  - intros Hw. apply wrapped_iff in Hw. congruence.
Qed.

Lemma poll_success (k n : nat) (c0 : Z) (w : TwoWire D) :
  (k < n)%nat ->
  (forall j, (j < k)%nat -> quiet c0 (poll_status j w)) ->
  Z.land (poll_status k w) CMD_ERR = 0 ->
  Z.land (poll_status k w) CMD_CTR > c0
  \/ (c0 = 15 /\ Z.land (poll_status k w) CMD_CTR = 0) ->
  poll n c0 w = (0, iter_state (S k) read_status w).
Proof.
  intros Hk Hq Herr Hadv.
  replace n with (k + S (n - S k))%nat by lia.
  rewrite poll_skip by exact Hq. rewrite poll_step.
  change (poll_status 0 (iter_state k read_status w)) with (poll_status k w).
  apply truthy_false in Herr. rewrite Herr, iter_state_last.
  assert (E : (Z.land (poll_status k w) CMD_CTR >? c0)
              || truthy (Z.land (Z.b2z (c0 =? 15))
                   (Z.b2z (Z.land (poll_status k w) CMD_CTR =? 0))) = true).
  { apply orb_true_iff. destruct Hadv as [Hgt | Hw].
    - left. destruct (Z.gtb_spec (Z.land (poll_status k w) CMD_CTR) c0);
        [reflexivity | lia].
    - right. now apply wrapped_iff. }
  rewrite E. reflexivity.
Qed.

Lemma poll_command_writes (n : nat) (c0 : Z) (w : TwoWire D) :
  command_writes (trace (snd (poll n c0 w))) = command_writes (trace w).
Proof.
  revert w. induction n as [|n IH]; intros w; [reflexivity |].
  rewrite poll_step.
  destruct (truthy _); [apply read_status_command_writes |].
  destruct (_ || _); [apply read_status_command_writes |].
  rewrite IH. apply read_status_command_writes.
Qed.

Lemma poll_reads (n : nat) (c0 : Z) (w : TwoWire D) :
  (reads (trace w) + Nat.min 1 n <= reads (trace (snd (poll n c0 w)))
   <= reads (trace w) + n)%nat.
Proof.
  revert w. induction n as [|n IH]; intros w; [simpl; lia |].
  rewrite poll_step. pose proof (read_status_reads w) as Hr.
  destruct (truthy _); [cbn [snd]; lia |].
  destruct (_ || _); [cbn [snd]; lia |].
  specialize (IH (snd (read_status w))). lia.
Qed.

Lemma poll_timeout_inv (n : nat) (c0 : Z) :
  forall w : TwoWire D,
  fst (poll n c0 w) = 17 ->
  forall k, (k < n)%nat -> quiet c0 (poll_status k w).
Proof.
  induction n as [|n IH]; intros w H17 k Hk; [lia |].
  rewrite poll_step in H17.
  pose proof (counter_range (fst (read_status w))) as Hc.
  change (uint8 (fst (read_status w))) with (poll_status 0 w) in Hc.
  destruct (truthy (Z.land (poll_status 0 w) CMD_ERR)) eqn:Eerr;
    [cbn [fst] in H17; lia |].
  destruct (_ || _) eqn:Eadv; [cbn [fst] in H17; lia |].
  destruct k as [|k].
  - now apply continue_quiet.
  - rewrite poll_status_succ. apply IH; [exact H17 | lia].
Qed.

Lemma issued_command_writes (code : Z) (w : TwoWire D) :
  command_writes (trace (issued code w)) = command_writes (trace w) ++ [code].
Proof.
  unfold issued. rewrite write_data_eq. cbn [snd trace].
  rewrite command_writes_app, read_status_command_writes.
  cbn [command_writes]. rewrite !Z.eqb_refl. reflexivity.
Qed.

(** Once the command is issued, if the status reads are quiet up to one,
    within the retry budget, that shows the error flag clear and the counter
    advanced (greater than before the command, or at 0 after 15),
    [send_command] returns 0 and stops at that read. *)
Theorem send_command_counter_advanced (code : Z) (force : bool)
    (w : TwoWire D) (k : nat) :
  Z.land (poll_status 0 w) CMD_ERR = 0 \/ force = true ->
  (k < Z.to_nat MAX_RETRIES)%nat ->
  (forall j, (j < k)%nat ->
     quiet (Z.land (poll_status 0 w) CMD_CTR)
           (poll_status j (issued code w))) ->
  Z.land (poll_status k (issued code w)) CMD_ERR = 0 ->
  Z.land (poll_status k (issued code w)) CMD_CTR
    > Z.land (poll_status 0 w) CMD_CTR
  \/ (Z.land (poll_status 0 w) CMD_CTR = 15
      /\ Z.land (poll_status k (issued code w)) CMD_CTR = 0) ->
  send_command code force w =
  (0, iter_state (S k) read_status (issued code w)).
Proof.
  intros Hgo Hk Hq Herr Hadv.
  rewrite send_command_proceeds by exact Hgo.
  apply (poll_success k); assumption.
Qed.

(** [send_command] writes the command register at most once: not at all
    when it aborts on an error flag found by the first status read with
    [force] false, and exactly once, with [code], otherwise; polling writes
    nothing to it. *)
Theorem send_command_writes_command_once (code : Z) (force : bool)
    (w : TwoWire D) :
  command_writes (trace (snd (send_command code force w))) =
  command_writes (trace w)
  ++ (if truthy (Z.land (poll_status 0 w) CMD_ERR) && negb force
      then [] else [code]).
Proof.
  rewrite send_command_eq.
  destruct (_ && _).
  - cbn [snd]. rewrite read_status_command_writes. symmetry. apply app_nil_r.
  - rewrite poll_command_writes. apply issued_command_writes.
Qed.

(** [send_command] reads the status register once and, unless it aborts, at
    least once more and at most [MAX_RETRIES] times more, whatever the peer
    does. *)
Theorem send_command_read_budget (code : Z) (force : bool) (w : TwoWire D) :
  let after := reads (trace (snd (send_command code force w))) in
  (if truthy (Z.land (poll_status 0 w) CMD_ERR) && negb force
   then after = reads (trace w) + 1
   else reads (trace w) + 2 <= after
        /\ after <= reads (trace w) + 1 + Z.to_nat MAX_RETRIES)%nat.
Proof.
  intros after. subst after. rewrite send_command_eq.
  destruct (_ && _).
  - cbn [snd]. rewrite read_status_reads. lia.
  - pose proof (poll_reads (Z.to_nat MAX_RETRIES)
                  (Z.land (poll_status 0 w) CMD_CTR) (issued code w)) as Hp.
    rewrite issued_reads in Hp.
    assert (Hm : Nat.min 1 (Z.to_nat MAX_RETRIES) = 1%nat)
      by (unfold MAX_RETRIES; lia).
    rewrite Hm in Hp. lia.
Qed.

(** The result of [send_command] is negative exactly when the first status
    read shows the error flag and [force] is false; with [force] true it is
    never negative. *)
Theorem send_command_negative_iff_aborted (code : Z) (force : bool)
    (w : TwoWire D) :
  fst (send_command code force w) < 0
  <-> Z.land (poll_status 0 w) CMD_ERR <> 0 /\ force = false.
Proof.
  rewrite send_command_eq.
  pose proof (counter_range (fst (read_status w))) as Hc.
  change (uint8 (fst (read_status w))) with (poll_status 0 w) in Hc.
  pose proof (poll_range (Z.to_nat MAX_RETRIES)
                (Z.land (poll_status 0 w) CMD_CTR) (issued code w)) as Hp.
  destruct (truthy (Z.land (poll_status 0 w) CMD_ERR)) eqn:Eerr;
    destruct force; cbn [andb negb fst].
  - apply truthy_true in Eerr. split; [lia | intros [_ Hf]; discriminate].
  - apply truthy_true in Eerr. split; [auto | lia].
  - apply truthy_false in Eerr. split; [lia | intros [Hn _]; contradiction].
  - apply truthy_false in Eerr. split; [lia | intros [Hn _]; contradiction].
Qed.

(** [send_command] returns 17 exactly when it issues the command and every
    one of the [MAX_RETRIES] status reads that follow is quiet: no error
    code and no success is ever reported as 17. *)
Theorem send_command_timeout_iff (code : Z) (force : bool) (w : TwoWire D) :
  fst (send_command code force w) = 17
  <-> (Z.land (poll_status 0 w) CMD_ERR = 0 \/ force = true)
      /\ (forall k, (k < Z.to_nat MAX_RETRIES)%nat ->
            quiet (Z.land (poll_status 0 w) CMD_CTR)
                  (poll_status k (issued code w))).
Proof.
  split.
  - intros H17. rewrite send_command_eq in H17.
    pose proof (counter_range (fst (read_status w))) as Hc.
    change (uint8 (fst (read_status w))) with (poll_status 0 w) in Hc.
    destruct (truthy (Z.land (poll_status 0 w) CMD_ERR)) eqn:Eerr;
      destruct force; cbn [andb negb fst] in H17; try lia.
    + split; [now right | now apply poll_timeout_inv].
    + apply truthy_false in Eerr.
      split; [now left | now apply poll_timeout_inv].
    + apply truthy_false in Eerr.
      split; [now left | now apply poll_timeout_inv].
  - intros [Hgo Hq]. rewrite send_command_proceeds by exact Hgo.
    rewrite poll_exhausted by exact Hq. reflexivity.
Qed.

(** When the command is issued and the first status read after it fails
    (returns -1), [send_command] returns 16, the code of a device error with
    the counter at 15 ([CMD_ERR] being one of the upper four bits). *)
Theorem send_command_poll_failure (code : Z) (force : bool) (w : TwoWire D) :
  flag_bit CMD_ERR ->
  Z.land (poll_status 0 w) CMD_ERR = 0 \/ force = true ->
  fst (read_status (issued code w)) = -1 ->
  send_command code force w = (16, snd (read_status (issued code w))).
Proof.
  intros Hbit Hgo Hfail.
  rewrite send_command_proceeds by exact Hgo.
  assert (Hs : poll_status 0 (issued code w) = 255).
  { unfold poll_status, iter_state. rewrite Hfail. reflexivity. }
  rewrite (poll_error 0).
  - rewrite Hs. reflexivity.
  - unfold MAX_RETRIES. lia.
  - intros j Hj. lia.
  - rewrite Hs. destruct Hbit as [-> | [-> | [-> | ->]]]; discriminate.
Qed.

End CommandOutcomes.

(** ** More on the parameter access sub-protocol *)

Section ParameterTraffic.
Context {hdr : Si115X_h} {D : Type} `{I2CPeer D}.

Lemma write_data_trace (addr : Z) (data : list Z) (w : TwoWire D) :
  trace (snd (write_data addr data w)) = trace w ++ [Tx addr data].
Proof. rewrite write_data_eq. reflexivity. Qed.

Lemma param_query_pass_eq (loc : Z) (w : TwoWire D) :
  let committed :=
    snd (write_data DEVICE_ADDRESS
           [COMMAND; uint8 (Z.lor loc (Z.shiftl 1 6))]
           (snd (read_status w))) in
  param_query_pass loc w =
  (fst (read_status committed) >? fst (read_status w),
   snd (read_status committed)).
Proof.
  unfold param_query_pass, read_status, bind, ret.
  destruct (read_register DEVICE_ADDRESS RESPONSE_0 1 w) as [c w0].
  cbn [fst snd].
  destruct (write_data DEVICE_ADDRESS _ w0) as [[] w1].
  cbn [fst snd].
  destruct (read_register DEVICE_ADDRESS RESPONSE_0 1 w1) as [r w2].
  reflexivity.
Qed.

Lemma command_byte (tag loc : Z) :
  tag = 1 \/ tag = 2 ->
  0 <= loc < 64 ->
  uint8 (Z.lor loc (Z.shiftl tag 6)) = tag * 64 + loc.
Proof.
  intros Htag Hloc.
  rewrite <- (Z2Nat.id loc) by lia.
  assert (Hn : (Z.to_nat loc < 64)%nat) by lia.
  revert Hn. generalize (Z.to_nat loc) as n. intros n Hn.
  destruct Htag as [-> | ->];
    do 64 (destruct n as [|n]; [vm_compute; reflexivity |]); lia.
Qed.

Lemma param_set_pass_trace (loc val : Z) (w : TwoWire D) :
  exists d1 d2,
    trace (snd (param_set_pass loc val w)) =
    trace w ++
    [Tx DEVICE_ADDRESS [RESPONSE_0]; Rx DEVICE_ADDRESS 1 d1;
     Tx DEVICE_ADDRESS [HOSTIN_0; val];
     Tx DEVICE_ADDRESS [COMMAND; uint8 (Z.lor loc (Z.shiftl 2 6))];
     Tx DEVICE_ADDRESS [RESPONSE_0]; Rx DEVICE_ADDRESS 1 d2].
Proof.
  rewrite param_set_pass_eq. cbn zeta. cbn [snd]. unfold read_status.
  destruct (read_register_trace DEVICE_ADDRESS RESPONSE_0 1 w) as [d1 E1].
  set (w0 := snd (read_register DEVICE_ADDRESS RESPONSE_0 1 w)) in *.
  set (w2 := snd (write_data DEVICE_ADDRESS _
                    (snd (write_data DEVICE_ADDRESS [HOSTIN_0; val] w0)))).
  destruct (read_register_trace DEVICE_ADDRESS RESPONSE_0 1 w2) as [d2 E2].
  exists d1, d2. rewrite E2. subst w2.
  rewrite !write_data_trace, E1, <- !app_assoc. reflexivity.
Qed.

(** With the staging register apart from the command register, a pass of
    [param_set] writes the command register once. *)
Lemma param_set_pass_command_writes (loc val : Z) (w : TwoWire D) :
  HOSTIN_0 <> COMMAND ->
  command_writes (trace (snd (param_set_pass loc val w))) =
  command_writes (trace w) ++ [uint8 (Z.lor loc (Z.shiftl 2 6))].
Proof.
  intros Hne. destruct (param_set_pass_trace loc val w) as (d1 & d2 & E).
  rewrite E, command_writes_app. cbn [command_writes].
  rewrite !Z.eqb_refl.
  destruct (Z.eqb_spec HOSTIN_0 COMMAND) as [Heq | _]; [contradiction |].
  rewrite andb_false_r. reflexivity.
Qed.

(** The bus traffic of one pass of [param_set]: the status register is
    read, the value is written to the staging register, then the command
    register receives the location under the write tag (128 + [loc] for a
    location below 64), and the status register is read again. *)
Theorem param_set_pass_wire_format (loc val : Z) (w : TwoWire D) :
  (exists d1 d2,
     trace (snd (param_set_pass loc val w)) =
     trace w ++
     [Tx DEVICE_ADDRESS [RESPONSE_0]; Rx DEVICE_ADDRESS 1 d1;
      Tx DEVICE_ADDRESS [HOSTIN_0; val];
      Tx DEVICE_ADDRESS [COMMAND; uint8 (Z.lor loc (Z.shiftl 2 6))];
      Tx DEVICE_ADDRESS [RESPONSE_0]; Rx DEVICE_ADDRESS 1 d2])
  /\ (0 <= loc < 64 -> uint8 (Z.lor loc (Z.shiftl 2 6)) = 128 + loc).
Proof.
  split; [apply param_set_pass_trace |].
  intros Hloc. rewrite (command_byte 2) by auto. lia.
Qed.

(** The bus traffic of one pass of [param_query]: a status read, the
    location under the read tag (64 + [loc] for a location below 64)
    written to the command register, a status read; nothing is written to
    the staging register. *)
Theorem param_query_pass_wire_format (loc : Z) (w : TwoWire D) :
  (exists d1 d2,
     trace (snd (param_query_pass loc w)) =
     trace w ++
     [Tx DEVICE_ADDRESS [RESPONSE_0]; Rx DEVICE_ADDRESS 1 d1;
      Tx DEVICE_ADDRESS [COMMAND; uint8 (Z.lor loc (Z.shiftl 1 6))];
      Tx DEVICE_ADDRESS [RESPONSE_0]; Rx DEVICE_ADDRESS 1 d2])
  /\ (0 <= loc < 64 -> uint8 (Z.lor loc (Z.shiftl 1 6)) = 64 + loc).
Proof.
  split; [| intros Hloc; rewrite (command_byte 1) by auto; lia].
  rewrite param_query_pass_eq. cbn zeta. cbn [snd]. unfold read_status.
  destruct (read_register_trace DEVICE_ADDRESS RESPONSE_0 1 w) as [d1 E1].
  set (w0 := snd (read_register DEVICE_ADDRESS RESPONSE_0 1 w)) in *.
  set (w1 := snd (write_data DEVICE_ADDRESS _ w0)).
  destruct (read_register_trace DEVICE_ADDRESS RESPONSE_0 1 w1) as [d2 E2].
  exists d1, d2. rewrite E2. subst w1.
  rewrite !write_data_trace, E1, <- !app_assoc. reflexivity.
Qed.

(** Whenever [param_query] returns, its result is -1 or a byte. *)
Theorem param_query_value_range (fuel : nat) (loc v : Z) (w w' : TwoWire D) :
  param_query fuel loc w = Some (v, w') ->
  v = -1 \/ 0 <= v <= 255.
Proof.
  unfold param_query. intros Hq.
  destruct (do_while fuel (param_query_pass loc) w) as [w1|];
    [| discriminate].
  pose proof (read_register_value DEVICE_ADDRESS RESPONSE_1 1 w1) as V.
  destruct (read_register DEVICE_ADDRESS RESPONSE_1 1 w1) as [v1 w2].
  cbn [fst] in V. congruence.
Qed.

Lemma alias_bytes (loc : Z) :
  0 <= loc < 64 ->
  uint8 (Z.lor (loc + 64) (Z.shiftl 1 6)) = uint8 (Z.lor loc (Z.shiftl 1 6))
  /\ uint8 (Z.lor (loc + 128) (Z.shiftl 2 6)) = uint8 (Z.lor loc (Z.shiftl 2 6))
  /\ Z.shiftr (uint8 (Z.lor (loc + 64) (Z.shiftl 2 6))) 6 = 3
  /\ Z.shiftr (uint8 (Z.lor (loc + 128) (Z.shiftl 1 6))) 6 = 3.
Proof.
  intros Hloc.
  rewrite <- (Z2Nat.id loc) by lia.
  assert (Hn : (Z.to_nat loc < 64)%nat) by lia.
  revert Hn. generalize (Z.to_nat loc) as n. intros n Hn.
  do 64 (destruct n as [|n]; [vm_compute; repeat split; reflexivity |]); lia.
Qed.

(** Only the low six bits of a location reach the parameter table: for a
    location below 64, [param_query] of [loc + 64] is [param_query] of [loc]
    and [param_set] of [loc + 128] is [param_set] of [loc], while the byte
    that [param_set] sends for [loc + 64], and [param_query] for
    [loc + 128], carries the tag 11, which is neither the write nor the
    read tag. *)
Theorem param_location_aliasing (fuel : nat) (loc val : Z) (w : TwoWire D) :
  0 <= loc < 64 ->
  param_query fuel (loc + 64) w = param_query fuel loc w
  /\ param_set fuel (loc + 128) val w = param_set fuel loc val w
  /\ Z.shiftr (uint8 (Z.lor (loc + 64) (Z.shiftl 2 6))) 6 = 3
  /\ Z.shiftr (uint8 (Z.lor (loc + 128) (Z.shiftl 1 6))) 6 = 3.
Proof.
  intros Hloc. destruct (alias_bytes loc Hloc) as (Eq & Es & T1 & T2).
  repeat split; try assumption.
  - unfold param_query, param_query_pass. rewrite Eq. reflexivity.
  - unfold param_set, param_set_pass. rewrite Es. reflexivity.
Qed.

End ParameterTraffic.

(** ** More on the result decoder *)

Section OutputTraffic.
Context {hdr : Si115X_h} {D : Type} `{I2CPeer D}.

Lemma read_output_state (w : TwoWire D) :
  snd (read_output w) =
  snd (read_register DEVICE_ADDRESS HOSTOUT_3 1
    (snd (read_register DEVICE_ADDRESS HOSTOUT_2 1
      (snd (read_register DEVICE_ADDRESS HOSTOUT_1 1
        (snd (read_register DEVICE_ADDRESS HOSTOUT_0 1 w))))))).
Proof.
  unfold read_output, bind, ret.
  destruct (read_register DEVICE_ADDRESS HOSTOUT_0 1 w) as [d0 w0].
  cbn [snd].
  destruct (read_register DEVICE_ADDRESS HOSTOUT_1 1 w0) as [d1 w1].
  cbn [snd].
  destruct (read_register DEVICE_ADDRESS HOSTOUT_2 1 w1) as [d2 w2].
  cbn [snd].
  destruct (read_register DEVICE_ADDRESS HOSTOUT_3 1 w2) as [d3 w3].
  destruct (_ || _); reflexivity.
Qed.

(** [read_output] always reads the four output registers, in the order
    [HOSTOUT_0] to [HOSTOUT_3], also when an early read fails; it makes no
    other bus transaction, so it writes nothing to the command register. *)
Theorem read_output_reads_all_four (w : TwoWire D) :
  (exists d0 d1 d2 d3,
     trace (snd (read_output w)) =
     trace w ++
     [Tx DEVICE_ADDRESS [HOSTOUT_0]; Rx DEVICE_ADDRESS 1 d0;
      Tx DEVICE_ADDRESS [HOSTOUT_1]; Rx DEVICE_ADDRESS 1 d1;
      Tx DEVICE_ADDRESS [HOSTOUT_2]; Rx DEVICE_ADDRESS 1 d2;
      Tx DEVICE_ADDRESS [HOSTOUT_3]; Rx DEVICE_ADDRESS 1 d3])
  /\ reads (trace (snd (read_output w))) = (reads (trace w) + 4)%nat
  /\ command_writes (trace (snd (read_output w))) = command_writes (trace w).
Proof.
  rewrite read_output_state.
  destruct (read_register_trace DEVICE_ADDRESS HOSTOUT_0 1 w) as [d0 E0].
  set (w0 := snd (read_register DEVICE_ADDRESS HOSTOUT_0 1 w)) in *.
  destruct (read_register_trace DEVICE_ADDRESS HOSTOUT_1 1 w0) as [d1 E1].
  set (w1 := snd (read_register DEVICE_ADDRESS HOSTOUT_1 1 w0)) in *.
  destruct (read_register_trace DEVICE_ADDRESS HOSTOUT_2 1 w1) as [d2 E2].
  set (w2 := snd (read_register DEVICE_ADDRESS HOSTOUT_2 1 w1)) in *.
  destruct (read_register_trace DEVICE_ADDRESS HOSTOUT_3 1 w2) as [d3 E3].
  assert (E : trace (snd (read_register DEVICE_ADDRESS HOSTOUT_3 1 w2)) =
     trace w ++
     [Tx DEVICE_ADDRESS [HOSTOUT_0]; Rx DEVICE_ADDRESS 1 d0;
      Tx DEVICE_ADDRESS [HOSTOUT_1]; Rx DEVICE_ADDRESS 1 d1;
      Tx DEVICE_ADDRESS [HOSTOUT_2]; Rx DEVICE_ADDRESS 1 d2;
      Tx DEVICE_ADDRESS [HOSTOUT_3]; Rx DEVICE_ADDRESS 1 d3])
    by (rewrite E3, E2, E1, E0, <- !app_assoc; reflexivity).
  split; [exists d0, d1, d2, d3; exact E |].
  rewrite E, reads_app, command_writes_app. cbn [reads command_writes].
  split; [reflexivity | apply app_nil_r].
Qed.

End OutputTraffic.

(** ** The driver on a bus where nothing answers *)

Section UnansweredBus.
Context {hdr : Si115X_h}.

Lemma unanswered_read (addr reg : Z) (w : TwoWire constant_peer) :
  answer (bus w) = [] ->
  fst (read_register addr reg 1 w) = -1
  /\ bus (snd (read_register addr reg 1 w)) = bus w.
Proof.
  intros Hdead. rewrite read_register_eq. unfold delivered.
  cbn [peer_receive peer_transmit constant_peer_I2C fst snd].
  rewrite Hdead. split; reflexivity.
Qed.

Lemma unanswered_write (addr : Z) (data : list Z) (w : TwoWire constant_peer) :
  bus (snd (write_data addr data w)) = bus w.
Proof. rewrite write_data_eq. reflexivity. Qed.

(** On a bus where no read is answered, [param_set] returns after a single
    pass, [param_query] returns -1 after a single pass, and [read_output]
    reports failure without assigning a channel. *)
Theorem unanswered_bus (fuel : nat) (loc val : Z) (w : TwoWire constant_peer) :
  answer (bus w) = [] ->
  param_set (S fuel) loc val w = Some (snd (param_set_pass loc val w))
  /\ param_query (S fuel) loc w =
     Some (-1, snd (read_register DEVICE_ADDRESS RESPONSE_1 1
                      (snd (param_query_pass loc w))))
  /\ fst (read_output w) = mkReading (-1) None None.
Proof.
  intros Hdead.
  destruct (unanswered_read DEVICE_ADDRESS RESPONSE_0 w Hdead) as [Hc Hb].
  assert (Hset : fst (param_set_pass loc val w) = false).
  { rewrite param_set_pass_eq. cbn zeta. cbn [fst]. unfold read_status.
    rewrite Hc.
    set (w2 := snd (write_data DEVICE_ADDRESS _ _)).
    assert (Hb2 : answer (bus w2) = [])
      by (subst w2; rewrite !unanswered_write, Hb; exact Hdead).
    destruct (unanswered_read DEVICE_ADDRESS RESPONSE_0 w2 Hb2) as [-> _].
    reflexivity. }
  assert (Hquery : fst (param_query_pass loc w) = false
                   /\ answer (bus (snd (param_query_pass loc w))) = []).
  { rewrite param_query_pass_eq. cbn zeta. cbn [fst snd]. unfold read_status.
    rewrite Hc.
    set (w1 := snd (write_data DEVICE_ADDRESS _ _)).
    assert (Hb1 : answer (bus w1) = [])
      by (subst w1; rewrite unanswered_write, Hb; exact Hdead).
    destruct (unanswered_read DEVICE_ADDRESS RESPONSE_0 w1 Hb1) as [-> ->].
    split; [reflexivity | exact Hb1]. }
  destruct Hquery as [Hquery Hb3].
  split; [| split].
  - rewrite param_set_step, Hset. reflexivity.
  - unfold param_query. cbn [do_while].
    destruct (param_query_pass loc w) as [again w3]. cbn [fst snd] in *.
    subst again.
    destruct (unanswered_read DEVICE_ADDRESS RESPONSE_1 w3 Hb3) as [Hv _].
    destruct (read_register DEVICE_ADDRESS RESPONSE_1 1 w3) as [v w4].
    cbn [fst snd] in *. subst v. reflexivity.
  - unfold read_output, bind, ret.
    destruct (unanswered_read DEVICE_ADDRESS HOSTOUT_0 w Hdead) as [H0 _].
    destruct (read_register DEVICE_ADDRESS HOSTOUT_0 1 w) as [d0 w0].
    cbn [fst] in H0. subst d0.
    destruct (read_register DEVICE_ADDRESS HOSTOUT_1 1 w0) as [d1 w1].
    destruct (read_register DEVICE_ADDRESS HOSTOUT_2 1 w1) as [d2 w2].
    destruct (read_register DEVICE_ADDRESS HOSTOUT_3 1 w2) as [d3 w3].
    reflexivity.
Qed.

End UnansweredBus.

(** ** More on the driver against the device *)

Lemma counter_under_flag (c mask : Z) :
  0 <= c < 16 -> flag_bit mask -> Z.land c mask = 0 /\ Z.land c CMD_CTR = c.
Proof.
  intros Hc Hbit.
  rewrite <- (Z2Nat.id c) by lia.
  assert (Hn : (Z.to_nat c < 16)%nat) by lia.
  revert Hn. generalize (Z.to_nat c) as n. intros n Hn.
  destruct Hbit as [-> | [-> | [-> | ->]]];
    do 16 (destruct n as [|n]; [vm_compute; split; reflexivity |]); lia.
Qed.

Section DeviceBehaviour.
Context {hdr : Si115X_h}.
Hypothesis staging_is_not_command : HOSTIN_0 <> COMMAND.

Lemma device_command_counter (code : Z) (d : Si115X_device) :
  cmd_ctr (device_command code d) = (cmd_ctr d + 1) mod 16.
Proof.
  unfold device_command.
  destruct (Z.shiftr code 6 =? 2); [reflexivity |].
  destruct (Z.shiftr code 6 =? 1); reflexivity.
Qed.

(** Against the device, with no error flag in its status byte,
    [send_command] of any command returns 0 at the first status read after
    the command, also when the counter wraps from 15 to 0, and the device
    has counted one command. *)
Theorem send_command_device_completes (code : Z) (force : bool)
    (w : TwoWire Si115X_device) :
  flag_bit CMD_ERR ->
  0 <= cmd_ctr (bus w) < 16 ->
  fst (send_command code force w) = 0
  /\ reads (trace (snd (send_command code force w))) =
     (reads (trace w) + 2)%nat
  /\ cmd_ctr (bus (snd (send_command code force w))) =
     (cmd_ctr (bus w) + 1) mod 16.
Proof.
  intros Hbit Hctr.
  destruct (device_status w Hctr) as [Hc Hb].
  assert (Hs : poll_status 0 w = cmd_ctr (bus w)).
  { unfold poll_status, iter_state. rewrite Hc. apply uint8_small. lia. }
  destruct (counter_under_flag (cmd_ctr (bus w)) CMD_ERR Hctr Hbit)
    as [Herr0 Hctr0].
  assert (Hbus : cmd_ctr (bus (issued code w)) = (cmd_ctr (bus w) + 1) mod 16).
  { unfold issued. rewrite device_write, Hb.
    unfold device_write_reg, device_select. cbn [reg_ptr].
    destruct (Z.eqb_spec COMMAND HOSTIN_0) as [E | _]; [congruence |].
    rewrite Z.eqb_refl, device_command_counter. reflexivity. }
  assert (Hctr1 : 0 <= cmd_ctr (bus (issued code w)) < 16)
    by (rewrite Hbus; apply Z.mod_pos_bound; lia).
  destruct (device_status (issued code w) Hctr1) as [Hc1 Hb1].
  assert (Hs1 : poll_status 0 (issued code w) = (cmd_ctr (bus w) + 1) mod 16).
  { unfold poll_status, iter_state. rewrite Hc1, Hbus.
    apply uint8_small. rewrite <- Hbus. lia. }
  destruct (counter_under_flag _ CMD_ERR Hctr1 Hbit) as [Herr1 Hctr1'].
  rewrite Hbus in Herr1, Hctr1'.
  rewrite send_command_proceeds by (left; rewrite Hs; exact Herr0).
  rewrite (poll_success 0).
  - cbn [fst snd iter_state].
    rewrite read_status_reads, issued_reads, Hb1.
    unfold device_select. cbn [cmd_ctr]. rewrite Hbus.
    repeat split. lia.
  - unfold MAX_RETRIES. lia.
  - intros j Hj. lia.
  - rewrite Hs1. exact Herr1.
  - rewrite Hs, Hs1, Hctr0, Hctr1'.
    destruct (Z.eq_dec (cmd_ctr (bus w)) 15) as [E15 | Hne].
    + right. rewrite E15. split; reflexivity.
    + left. rewrite Z.mod_small by lia. lia.
Qed.

Lemma device_param_set_commits (loc val : Z) (n : nat) :
  0 <= loc < 64 -> 0 <= val < 256 ->
  forall (fuel : nat) (w : TwoWire Si115X_device),
  cmd_ctr (bus w) = 15 - Z.of_nat n -> (n <= 15)%nat -> (n < fuel)%nat ->
  (command_writes ∘ trace) <$> param_set fuel loc val w =
  Some (command_writes (trace w) ++ replicate (S n) (128 + loc)).
Proof.
  intros Hloc Hval. induction n as [|n IH]; intros fuel w Hc Hn Hfuel;
    (destruct fuel as [|fuel]; [lia |]); rewrite param_set_step;
    (destruct (device_param_set_pass staging_is_not_command loc val w)
      as [Hagain Hbus]; [lia | lia | lia |]);
    pose proof (param_set_pass_command_writes loc val w
                  staging_is_not_command) as Hcw;
    rewrite (command_byte 2) in Hcw by auto;
    rewrite Hagain, Hc.
  - change ((15 - Z.of_nat 0 + 1) mod 16 >? 15 - Z.of_nat 0) with false.
    cbn [fmap option_fmap option_map compose]. rewrite Hcw.
    reflexivity.
  - assert (Hmod : (15 - Z.of_nat (S n) + 1) mod 16 = 15 - Z.of_nat n)
      by (rewrite Z.mod_small; lia).
    rewrite Hmod.
    destruct (Z.gtb_spec (15 - Z.of_nat n) (15 - Z.of_nat (S n))); [| lia].
    rewrite IH; [| rewrite Hbus; cbn [cmd_ctr]; rewrite Hc; exact Hmod
                 | lia | lia].
    rewrite Hcw, <- app_assoc. reflexivity.
Qed.

(** Against the device, [param_set] writes the command register once per
    counter value from the initial one up to 15, that is [16 - counter]
    times, each time with the same byte 128 + [loc]. *)
Theorem param_set_device_commit_count (loc val : Z) (fuel : nat)
    (w : TwoWire Si115X_device) :
  0 <= loc < 64 -> 0 <= val < 256 ->
  0 <= cmd_ctr (bus w) < 16 ->
  (16 <= fuel)%nat ->
  (command_writes ∘ trace) <$> param_set fuel loc val w =
  Some (command_writes (trace w)
        ++ replicate (Z.to_nat (16 - cmd_ctr (bus w))) (128 + loc)).
Proof.
  intros Hloc Hval Hctr Hfuel.
  rewrite (device_param_set_commits loc val
             (Z.to_nat (15 - cmd_ctr (bus w)))) by lia.
  replace (S (Z.to_nat (15 - cmd_ctr (bus w))))
    with (Z.to_nat (16 - cmd_ctr (bus w))) by lia.
  reflexivity.
Qed.

(** Against the device, [param_set] changes the addressed parameter only,
    and [param_query] returns, as a byte, what the table holds at the
    location (0 where it holds nothing) and changes neither the table nor
    the staging register. *)
Theorem param_access_frame (loc val : Z) (fuel : nat)
    (w : TwoWire Si115X_device) :
  RESPONSE_0 <> RESPONSE_1 ->
  0 <= loc < 64 -> 0 <= val < 256 ->
  0 <= cmd_ctr (bus w) < 16 ->
  (16 <= fuel)%nat ->
  (exists w1,
     param_set fuel loc val w = Some w1
     /\ forall loc', loc' <> loc ->
          param_table (bus w1) !! loc' = param_table (bus w) !! loc')
  /\ (exists w2,
        param_query fuel loc w =
          Some (uint8 (default 0 (param_table (bus w) !! loc)), w2)
        /\ param_table (bus w2) = param_table (bus w)
        /\ hostin0 (bus w2) = hostin0 (bus w)).
Proof.
  intros Hsr Hloc Hval Hctr Hfuel. split.
  - destruct (device_param_set_loop staging_is_not_command loc val
                (Z.to_nat (15 - cmd_ctr (bus w))) Hloc Hval fuel w)
      as (w1 & Hset & Hw1); [lia | lia | lia |].
    exists w1. split; [exact Hset |].
    intros loc' Hne. rewrite Hw1. cbn [param_table].
    apply lookup_insert_ne. congruence.
  - destruct (device_param_query_loop staging_is_not_command loc
                (Z.to_nat (15 - cmd_ctr (bus w))) Hloc fuel w)
      as (w' & Hloop & Hw'); [lia | lia | lia |].
    exists (snd (read_register DEVICE_ADDRESS RESPONSE_1 1 w')).
    unfold param_query. rewrite Hloop.
    destruct (device_read RESPONSE_1 w') as [Hv Hb].
    destruct (read_register DEVICE_ADDRESS RESPONSE_1 1 w') as [v w2].
    cbn [fst snd] in *. rewrite Hv, Hb, Hw'.
    unfold device_read_reg, device_select.
    cbn [reg_ptr response1 param_table hostin0].
    destruct (Z.eqb_spec RESPONSE_1 RESPONSE_0) as [E | _]; [congruence |].
    rewrite Z.eqb_refl. repeat split.
Qed.

End DeviceBehaviour.

(** ** The further properties on concrete buses *)

Section FurtherOnTheDatasheet.
#[local] Existing Instance datasheet.

Lemma send_command_counter_advanced_witness :
  let w := idle [[0x03]; [0x03]; [0x04]] in
  quiet 3 (poll_status 0 (issued 0x13 w))
  /\ poll_status 1 (issued 0x13 w) = 0x04
  /\ fst (send_command 0x13 false w) = 0.
Proof.
  intros w.
  assert (Hq : quiet 3 (poll_status 0 (issued 0x13 w))).
  { vm_compute. repeat split; intros; intuition discriminate. }
  split; [exact Hq |]. split; [reflexivity |].
  rewrite (send_command_counter_advanced 0x13 false w 1).
  - reflexivity.
  - left. reflexivity.
  - unfold MAX_RETRIES. lia.
  - intros j Hj. destruct j as [|j]; [exact Hq | lia].
  - reflexivity.
  - left. vm_compute. reflexivity.
Defined.

Lemma send_command_poll_failure_witness :
  let w := idle [[0x03]] in
  fst (read_status (issued 0x13 w)) = -1
  /\ fst (send_command 0x13 false w) = 16.
Proof.
  intros w. split; [reflexivity |].
  rewrite (send_command_poll_failure 0x13 false w).
  - reflexivity.
  - left. reflexivity.
  - left. reflexivity.
  - reflexivity.
Defined.

Lemma param_query_value_range_witness :
  let w := idle [[0x03]; [0x03]; [0x2A]] in
  exists w', param_query 1 2 w = Some (0x2A, w')
             /\ (0x2A = -1 \/ 0 <= 0x2A <= 255).
Proof.
  intros w.
  exists (snd (read_register DEVICE_ADDRESS RESPONSE_1 1
                 (snd (param_query_pass 2 w)))).
  assert (E : param_query 1 2 w =
    Some (0x2A, snd (read_register DEVICE_ADDRESS RESPONSE_1 1
                       (snd (param_query_pass 2 w)))))
    by (vm_compute; reflexivity).
  split; [exact E |].
  exact (param_query_value_range 1 2 0x2A w _ E).
Defined.

Lemma param_location_aliasing_witness :
  let w := idle [[0x03]; [0x03]; [0x2A]] in
  0 <= 2 < 64
  /\ param_query 1 (2 + 64) w = param_query 1 2 w
  /\ param_set 1 (2 + 128) 7 w = param_set 1 2 7 w.
Proof.
  intros w.
  assert (Hloc : 0 <= 2 < 64) by lia.
  split; [exact Hloc |].
  destruct (param_location_aliasing 1 2 7 w Hloc) as (Hq & Hs & _).
  split; [exact Hq | exact Hs].
Defined.

Lemma unanswered_bus_witness :
  let w := idle (Constant []) in
  answer (bus w) = []
  /\ fst <$> param_query 1 2 w = Some (-1)
  /\ fst (read_output w) = mkReading (-1) None None.
Proof.
  intros w.
  assert (Hdead : answer (bus w) = []) by reflexivity.
  split; [exact Hdead |].
  destruct (unanswered_bus 0 2 7 w Hdead) as (_ & Hq & Ho).
  split; [rewrite Hq; reflexivity | exact Ho].
Defined.

Lemma send_command_device_completes_witness :
  let w := idle (mkDevice 0 15 0 0 ∅) in
  flag_bit CMD_ERR
  /\ fst (send_command 0x13 false w) = 0
  /\ cmd_ctr (bus (snd (send_command 0x13 false w))) = 0.
Proof.
  intros w.
  assert (H1 : HOSTIN_0 <> COMMAND) by (vm_compute; discriminate).
  assert (Hbit : flag_bit CMD_ERR) by (left; reflexivity).
  split; [exact Hbit |].
  destruct (send_command_device_completes H1 0x13 false w Hbit)
    as (Hv & _ & Hc); [cbn [w idle bus cmd_ctr]; lia |].
  split; [exact Hv | rewrite Hc; reflexivity].
Defined.

Lemma param_set_device_commit_count_witness :
  let w := idle (mkDevice 0 9 0 0 ∅) in
  HOSTIN_0 <> COMMAND
  /\ (command_writes ∘ trace) <$> param_set 16 2 7 w =
     Some (replicate 7 130).
Proof.
  intros w.
  assert (H1 : HOSTIN_0 <> COMMAND) by (vm_compute; discriminate).
  split; [exact H1 |].
  rewrite (param_set_device_commit_count H1 2 7 16 w);
    [reflexivity | lia | lia | cbn [w idle bus cmd_ctr]; lia | lia].
Defined.

Lemma param_access_frame_witness :
  let w := idle (mkDevice 0 9 0 0 {[ 5 := 33 ]}) in
  HOSTIN_0 <> COMMAND
  /\ RESPONSE_0 <> RESPONSE_1
  /\ (exists w1, param_set 16 2 7 w = Some w1
                 /\ param_table (bus w1) !! 5 = Some 33)
  /\ (exists w2, param_query 16 5 w = Some (33, w2)).
Proof.
  intros w.
  assert (H1 : HOSTIN_0 <> COMMAND) by (vm_compute; discriminate).
  assert (H2 : RESPONSE_0 <> RESPONSE_1) by (vm_compute; discriminate).
  split; [exact H1 |]. split; [exact H2 |].
  split.
  - destruct (param_access_frame H1 2 7 16 w H2) as [(w1 & Hset & Hframe) _];
      [lia | lia | cbn [w idle bus cmd_ctr]; lia | lia |].
    exists w1. split; [exact Hset |].
    rewrite (Hframe 5) by lia. reflexivity.
  - destruct (param_access_frame H1 5 7 16 w H2) as [_ (w2 & Hq & _)];
      [lia | lia | cbn [w idle bus cmd_ctr]; lia | lia |].
    exists w2. rewrite Hq. reflexivity.
Defined.

End FurtherOnTheDatasheet.
